(** * github3.pulls: pull requests, their files, reviews and review comments

    A shallow embedding of [github3/pulls.py].  Python values are a small
    inductive type, dictionaries are association lists in insertion order,
    and a method that talks to the remote service is a computation in a
    state-and-error monad whose state is the log of HTTP requests handed to
    the injected session.

    The base class [models.GitHubCore], the decorator [requires_auth], the
    session and the classes of other modules ([User], [Issue], ...) are not
    part of [pulls.py]; what the methods below need of them is collected in
    one place, each definition saying what it stands for; the constructors
    and initialisers among them are taken to succeed, so that what is proved
    about a construction that can fail is proved of the failures [pulls.py]
    itself can cause.  [requires_auth]
    only gates a call on the session's credentials: the decorated methods
    are modelled by their bodies, that is, for a session that is allowed to
    make the call. *)

From Stdlib Require Import ZArith String Ascii List Bool Lia.
From Stdlib.Strings Require Import Byte.
Import ListNotations.
#[local] Open Scope string_scope.
#[local] Open Scope list_scope.
#[local] Open Scope Z_scope.
#[local] Set Warnings "-register-all".

(** ** Python values *)

(** The values that flow through the module: what a JSON document decodes
    to, plus tuples.  JSON numbers with a fraction do not occur in the
    attributes this module reads and are not represented. *)
Inductive value : Type :=
| VNone
| VBool (b : bool)
| VInt (z : Z)
| VStr (s : string)
| VList (l : list value)
| VTuple (l : list value)
| VDict (d : list (string * value)).

Definition dict := list (string * value).

(** [d.get(k)] at the level of the association list. *)
Fixpoint dict_get (d : dict) (k : string) : option value :=
  match d with
  | [] => None
  | (k', v) :: rest => if String.eqb k k' then Some v else dict_get rest k
  end.

(** [d[k] = v]: overwrite in place, or append a new key. *)
Fixpoint dict_set (d : dict) (k : string) (v : value) : dict :=
  match d with
  | [] => [(k, v)]
  | (k', v') :: rest =>
      if String.eqb k k' then (k', v) :: rest else (k', v') :: dict_set rest k v
  end.

Definition is_none (v : value) : bool :=
  match v with VNone => true | _ => false end.

(** Truth value of [v] in a condition ([if v:]). *)
Definition truthy (v : value) : bool :=
  match v with
  | VNone => false
  | VBool b => b
  | VInt z => negb (z =? 0)
  | VStr s => negb (String.eqb s "")
  | VList l => match l with [] => false | _ => true end
  | VTuple l => match l with [] => false | _ => true end
  | VDict d => match d with [] => false | _ => true end
  end.

(** [a == b] on values.  Booleans compare as the integers 0 and 1;
    dictionaries compare regardless of the order of their keys. *)
Fixpoint py_eq (a b : value) {struct a} : bool :=
  let fix all2 (l l' : list value) {struct l} : bool :=
    match l, l' with
    | [], [] => true
    | x :: r, y :: r' => py_eq x y && all2 r r'
    | _, _ => false
    end in
  let fix sub (d : list (string * value)) (d' : dict) {struct d} : bool :=
    match d with
    | [] => true
    | (k, v) :: r =>
        match dict_get d' k with
        | Some v' => py_eq v v' && sub r d'
        | None => false
        end
    end in
  match a, b with
  | VNone, VNone => true
  | VBool x, VBool y => Bool.eqb x y
  | VBool x, VInt z => (if x then 1 else 0) =? z
  | VInt z, VBool y => z =? (if y then 1 else 0)
  | VInt x, VInt y => x =? y
  | VStr s, VStr s' => String.eqb s s'
  | VList l, VList l' => all2 l l'
  | VTuple l, VTuple l' => all2 l l'
  | VDict d, VDict d' => Nat.eqb (length d) (length d') && sub d d'
  | _, _ => false
  end.

(** [a != b] on values. *)
Definition py_ne (a b : value) : bool := negb (py_eq a b).

(** ** Exceptions *)

Inductive exn :=
| KeyError (k : string)
| TypeError
| AttributeError
| ValueError.

Inductive result (A : Type) :=
| Ok (a : A)
| Raise (e : exn).
Arguments Ok {A} a.
Arguments Raise {A} e.

Definition rbind {A B} (r : result A) (k : A -> result B) : result B :=
  match r with
  | Ok a => k a
  | Raise e => Raise e
  end.

Notation "'let?' x ':=' e 'in' k" := (rbind e (fun x => k))
  (at level 10, x name, e at level 100, k at level 200).

Definition is_ok {A} (r : result A) : bool :=
  match r with Ok _ => true | Raise _ => false end.

(** [v.get(k)]: only a dictionary has the method. *)
Definition py_get (v : value) (k : string) : result value :=
  match v with
  | VDict d => Ok (match dict_get d k with Some x => x | None => VNone end)
  | _ => Raise AttributeError
  end.

(** [v.get(k, dflt)]. *)
Definition py_get_default (v : value) (k : string) (dflt : value) : result value :=
  match v with
  | VDict d => Ok (match dict_get d k with Some x => x | None => dflt end)
  | _ => Raise AttributeError
  end.

(** [v[k]] for a string key [k]. *)
Definition py_getitem (v : value) (k : string) : result value :=
  match v with
  | VDict d =>
      match dict_get d k with
      | Some x => Ok x
      | None => Raise (KeyError k)
      end
  | _ => Raise TypeError
  end.

(** ** The string methods the module calls *)

Fixpoint str_replace_from (old new : string) (skip : nat) (s : string) : string :=
  match s with
  | EmptyString => EmptyString
  | String c rest =>
      match skip with
      | S n => str_replace_from old new n rest
      | O =>
          if String.prefix old s
          then String.append new (str_replace_from old new (Nat.pred (String.length old)) rest)
          else String c (str_replace_from old new O rest)
      end
  end.

(** [s.replace(old, new)] for a non-empty [old]: every occurrence, scanning
    from the left, occurrences not overlapping. *)
Definition str_replace (old new s : string) : string :=
  str_replace_from old new O s.

(** Index of the last [c] in [s] counted from [i], or -1. *)
Fixpoint str_rfind_from (c : ascii) (i : Z) (s : string) : Z :=
  match s with
  | EmptyString => -1
  | String c' rest =>
      let later := str_rfind_from c (i + 1) rest in
      if 0 <=? later then later else if Ascii.eqb c c' then i else -1
  end.

Definition str_rfind (c : ascii) (s : string) : Z := str_rfind_from c 0 s.

(** [s[n:]] for [n >= 0]. *)
Fixpoint str_drop (n : nat) (s : string) : string :=
  match n, s with
  | O, _ => s
  | S n', String _ rest => str_drop n' rest
  | S _, EmptyString => EmptyString
  end.

(** [v.replace(old, new)]: a method of strings only. *)
Definition py_replace (v : value) (old new : string) : result value :=
  match v with
  | VStr s => Ok (VStr (str_replace old new s))
  | _ => Raise AttributeError
  end.

(** [v[v.rfind('/') + 1:]], as [ReviewComment.reply] computes it. *)
Definition py_after_last (v : value) (c : ascii) : result value :=
  match v with
  | VStr s => Ok (VStr (str_drop (Z.to_nat (str_rfind c s + 1)) s))
  | _ => Raise AttributeError
  end.

(** ** The session: the injected HTTP client *)

Inductive verb := GET | POST | PUT | PATCH.

(** One call on the session: the verb, the URL, the [headers=] and [data=]
    keyword arguments ([VNone] when the call passes no data). *)
Record request := {
  req_verb : verb;
  req_url : value;
  req_headers : list (string * string);
  req_data : value
}.

(** What the methods read of a response: [status_code], [content] (the raw
    body, a byte string) and [json_body], the value [response.json()]
    decodes it to. *)
Record response := {
  status_code : Z;
  content : list byte;
  json_body : value
}.

(** The session is external to the library: it answers a request, possibly
    depending on the requests made before, and joins URL segments onto a
    base URL ([build_url('merge', base_url=...)]). *)
Class Session := {
  respond : list request -> request -> response;
  build_url : list string -> value -> value
}.

(** The two library functions whose results the module passes on:
    [json.dumps], and the parsing that [int] does on a string. *)
Class Builtins := {
  dumps : value -> string;
  int_of_str : string -> result Z
}.

(** [int(v)]. *)
Definition py_int {py : Builtins} (v : value) : result Z :=
  match v with
  | VInt z => Ok z
  | VBool b => Ok (if b then 1 else 0)
  | VStr s => int_of_str s
  | _ => Raise TypeError
  end.

(** ** Computations that talk to the session *)

(** A computation takes the log of the requests made so far and returns a
    value or an exception together with the extended log. *)
Definition M (A : Type) : Type := list request -> result A * list request.

Definition ret {A} (a : A) : M A := fun log => (Ok a, log).

Definition bind {A B} (m : M A) (k : A -> M B) : M B :=
  fun log =>
    match m log with
    | (Ok a, log') => k a log'
    | (Raise e, log') => (Raise e, log')
    end.

Definition lift {A} (r : result A) : M A := fun log => (r, log).

Notation "x <- m ;; k" := (bind m (fun x => k))
  (at level 61, m at next level, right associativity).

(** The requests a computation adds to a log. *)
Definition issued {A} (m : M A) (log : list request) : list request :=
  skipn (length log) (snd (m log)).

(** ** What the methods use of [models.GitHubCore] *)

Section GitHubCore.
Context {net : Session}.

(** Modelled from the spec: the base class's [_get], [_post], [_put] and
    [_patch] (github3/models.py), each of which performs its one HTTP verb on
    the injected session with the arguments it is given. *)
Definition perform (v : verb) (url : value) (headers : list (string * string))
    (data : value) : M response :=
  fun log =>
    let req := {| req_verb := v; req_url := url;
                  req_headers := headers; req_data := data |} in
    (Ok (respond log req), log ++ [req]).

Definition _get (url : value) (headers : list (string * string)) : M response :=
  perform GET url headers VNone.

Definition _post (url : value) (data : value) : M response :=
  perform POST url [] data.

Definition _put (url : value) (data : value) : M response :=
  perform PUT url [] data.

Definition _patch (url : value) (data : value) : M response :=
  perform PATCH url [] data.

(** Modelled from the spec: [GitHubCore._build_url], which hands its
    arguments to the session. *)
Definition _build_url (segments : list string) (base_url : value) : value :=
  build_url segments base_url.

End GitHubCore.

(** Modelled from the spec: [GitHubCore._boolean(response, true_code,
    false_code)] (github3/models.py), true exactly when the response has the
    true code.  What the base class does with an error status other than the
    false code is outside [pulls.py] and not represented. *)
Definition _boolean (r : response) (true_code false_code : Z) : bool :=
  status_code r =? true_code.

(** Modelled from the spec: [GitHubCore._json(response, status_code)]
    (github3/models.py), the decoded body of a response with the expected
    status and [None] for any other. *)
Definition _json (r : response) (code : Z) : value :=
  if _boolean r code 404 then json_body r else VNone.

(** Modelled from the spec: [GitHubCore._get_attribute(data, attribute,
    fallback=None)] (github3/models.py): the value stored under the key, and
    the fallback when the key is missing or holds null ([None] when [data]
    is no dictionary at all). *)
Definition _get_attribute (data : value) (attribute : string) (fallback : value)
    : value :=
  match data with
  | VDict d =>
      match dict_get d attribute with
      | Some VNone => fallback
      | Some v => v
      | None => fallback
      end
  | _ => VNone
  end.

(** Modelled from the spec: [GitHubCore._remove_none(data)]
    (github3/models.py), which deletes the keys that hold [None]. *)
Definition _remove_none (data : dict) : dict :=
  filter (fun kv => negb (is_none (snd kv))) data.

(** Classes this module instantiates. *)
Module Cls.
Inductive t :=
| User | Issue | IssueComment | RepoCommit | Contents | Repository
| URITemplate | datetime
| PullDestination | PullFile | PullRequest | PullReview | ReviewComment.

Definition name (c : t) : string :=
  match c with
  | User => "User" | Issue => "Issue" | IssueComment => "IssueComment"
  | RepoCommit => "RepoCommit" | Contents => "Contents"
  | Repository => "Repository" | URITemplate => "URITemplate"
  | datetime => "datetime"
  | PullDestination => "PullDestination" | PullFile => "PullFile"
  | PullRequest => "PullRequest" | PullReview => "PullReview"
  | ReviewComment => "ReviewComment"
  end.
End Cls.

(** An instance of a class defined outside this module, kept as the class
    and the value it was built from.  The session argument of such a
    constructor ([self] or [None]) only says which client the new object
    holds, and is left out. *)
Record object := New {
  class_of : Cls.t;
  built_from : value
}.

(** An attribute that holds either a plain value or an instance. *)
Inductive attr (A : Type) :=
| Raw (v : value)
| Inst (a : A).
Arguments Raw {A} v.
Arguments Inst {A} a.

(** Modelled from the spec: [GitHubCore._class_attribute(data, attribute,
    cl, *args)] (github3/models.py): the attribute, turned into an instance
    of [cl] when it is there (truthy), and returned as it is otherwise. *)
Definition _class_attribute {A} (data : value) (attribute : string)
    (cl : value -> result A) : result (attr A) :=
  let v := _get_attribute data attribute VNone in
  if truthy v then let? a := cl v in Ok (Inst a) else Ok (Raw v).

(** Modelled from the spec: the constructors of the classes that other
    modules define ([User], [Repository], [Issue], [IssueComment],
    [Contents] and [RepoCommit] of the library, [URITemplate] and
    [datetime] of others), "decoding into further record types": the
    instance is kept as the class and the value it was built from, and the
    construction is taken to succeed. *)
Definition new (c : Cls.t) (v : value) : result object := Ok (New c v).

(** Modelled from the spec: [GitHubCore.__init__(json)]
    (github3/models.py), the initialiser that the classes of this module
    inherit and that [PullDestination.__init__] calls first: it keeps the
    JSON and the session on the object.  Nothing it keeps is read in
    [pulls.py]; it is taken to succeed. *)
Definition GitHubCore__init__ (json : value) : result unit := Ok tt.

(** Modelled from the spec: [BaseComment._update_attributes(comment)]
    (github3/models.py), which [ReviewComment._update_attributes] calls
    first.  Of the attributes it assigns, the two that this module reads are
    kept: the comment's [id] and its API URL [_api], each taken from the key
    of that name ([id], [url]).  It is taken to succeed. *)
Definition BaseComment_update_attributes (comment : value) : result (value * value) :=
  Ok (_get_attribute comment "id" VNone, _get_attribute comment "url" VNone).

(** Modelled from the spec: [GitHubCore._strptime_attribute(data,
    attribute)] (github3/models.py): the timestamp under the key parsed into
    a [datetime], [None] when there is none. *)
Definition _strptime_attribute (data : value) (attribute : string) : attr object :=
  let v := _get_attribute data attribute VNone in
  if truthy v then Inst (New Cls.datetime v) else Raw VNone.

(** The result of [_instance_or_null]. *)
Inductive nullable (A : Type) :=
| NullObject (name : string)
| Object (a : A).
Arguments NullObject {A} name.
Arguments Object {A} a.

(** Modelled from the spec: [GitHubCore._instance_or_null(instance_class,
    json)] (github3/models.py): the decoded record, or the null object of
    that class when there is no JSON. *)
Definition _instance_or_null {A} (c : Cls.t) (cl : value -> result A)
    (json : value) : result (nullable A) :=
  match json with
  | VNone => Ok (NullObject (Cls.name c))
  | _ => let? a := cl json in Ok (Object a)
  end.

(** Modelled from the spec: the lazy sequence that [GitHubCore._iter(count,
    url, cls, params=None, etag=None, headers=None)] returns
    (github3/structs.py): it records what to fetch, and fetches nothing
    until it is iterated. *)
Record GitHubIterator := {
  it_count : Z;
  it_url : value;
  it_cls : Cls.t;
  it_params : value;
  it_etag : value;
  it_headers : option (list (string * string))
}.

Definition _iter (count : Z) (url : value) (cls : Cls.t) (etag : value)
    (headers : option (list (string * string))) : GitHubIterator :=
  {| it_count := count; it_url := url; it_cls := cls; it_params := VNone;
     it_etag := etag; it_headers := headers |}.

(** ** PullDestination *)

Module PullDestination.

Record t := {
  direction : value;
  ref : value;
  label : value;
  user : attr object;
  sha : value;
  _repo_name : value;
  _repo_owner : value;
  repository : option object;
  repo : value
}.

(** [PullDestination(dest, direction)].  The attribute [repository] is only
    assigned when the JSON has a repository ([None] here stands for an
    attribute that was never set); [User] and [Repository] are built with
    [new]. *)
Definition __init__ (dest direction : value) : result t :=
  let? _ := GitHubCore__init__ dest in
  let? ref_ := py_get dest "ref" in
  let? label_ := py_get dest "label" in
  let? u := py_get dest "user" in
  let user_ := if truthy u then Inst (New Cls.User u) else Raw VNone in
  let? sha_ := py_get dest "sha" in
  let? r := py_get dest "repo" in
  if truthy r then
    let? r1 := py_getitem dest "repo" in
    let? name_ := py_get r1 "name" in
    let? r2 := py_getitem dest "repo" in
    let? owner := py_getitem r2 "owner" in
    let? login := py_get owner "login" in
    Ok {| direction := direction; ref := ref_; label := label_;
          user := user_; sha := sha_;
          _repo_name := name_; _repo_owner := login;
          repository := Some (New Cls.Repository r);
          repo := VTuple [login; name_] |}
  else
    Ok {| direction := direction; ref := ref_; label := label_;
          user := user_; sha := sha_;
          _repo_name := VStr ""; _repo_owner := VStr "";
          repository := None;
          repo := VTuple [VStr ""; VStr ""] |}.

End PullDestination.

(** ** PullFile *)

Module PullFile.

Record t := {
  sha : value;
  filename : value;
  status : value;
  additions_count : value;
  deletions_count : value;
  changes_count : value;
  blob_url : value;
  raw_url : value;
  patch : value;
  contents_url : value
}.

Definition _update_attributes (pfile : value) : t :=
  {| sha := _get_attribute pfile "sha" VNone;
     filename := _get_attribute pfile "filename" VNone;
     status := _get_attribute pfile "status" VNone;
     additions_count := _get_attribute pfile "additions" VNone;
     deletions_count := _get_attribute pfile "deletions" VNone;
     changes_count := _get_attribute pfile "changes" VNone;
     blob_url := _get_attribute pfile "blob_url" VNone;
     raw_url := _get_attribute pfile "raw_url" VNone;
     patch := _get_attribute pfile "patch" VNone;
     contents_url := _get_attribute pfile "contents_url" VNone |}.

Section Methods.
Context {net : Session}.

Definition contents (self : t) : M (nullable object) :=
  resp <- _get (contents_url self) [] ;;
  let json := _json resp 200 in
  lift (_instance_or_null Cls.Contents (new Cls.Contents) json).

End Methods.
End PullFile.

(** ** PullReview *)

Module PullReview.

Record t := {
  id : value;
  commit_id : value;
  user : attr object;
  state : value;
  created_at : attr object;
  body : value;
  pull_request_url : value
}.

Definition _update_attributes (preview : value) : result t :=
  let? user_ := _class_attribute preview "user" (new Cls.User) in
  Ok {| id := _get_attribute preview "id" VNone;
        commit_id := _get_attribute preview "commit_id" VNone;
        user := user_;
        state := _get_attribute preview "state" VNone;
        created_at := _strptime_attribute preview "created_at";
        body := _get_attribute preview "body" VNone;
        pull_request_url := _get_attribute preview "pull_request_url" VNone |}.

End PullReview.

(** ** ReviewComment *)

Module ReviewComment.

(** The first two fields are the inherited ones that this module reads;
    [BaseComment_update_attributes] assigns them. *)
Record t := {
  id : value;
  _api : value;
  user : attr object;
  original_position : value;
  path : value;
  position : value;
  commit_id : value;
  diff_hunk : value;
  original_commit_id : value;
  pull_request_url : value
}.

Definition _update_attributes (comment : value) : result t :=
  let? inherited := BaseComment_update_attributes comment in
  let? user_ := _class_attribute comment "user" (new Cls.User) in
  Ok {| id := fst inherited;
        _api := snd inherited;
        user := user_;
        original_position := _get_attribute comment "original_position" VNone;
        path := _get_attribute comment "path" VNone;
        position := _get_attribute comment "position" VNone;
        commit_id := _get_attribute comment "commit_id" VNone;
        diff_hunk := _get_attribute comment "diff_hunk" VNone;
        original_commit_id := _get_attribute comment "original_commit_id" VNone;
        pull_request_url := _get_attribute comment "pull_request_url" VNone |}.

(** Modelled from the spec: [__eq__] and [__ne__], which [pulls.py] inherits
    from the base class (github3/models.py), as the class docstring gives
    them: [c1 == c2] is [c1.id == c2.id] and [c1 != c2] is [c1.id != c2.id]. *)
Definition __eq__ (c1 c2 : t) : bool := py_eq (id c1) (id c2).

Definition __ne__ (c1 c2 : t) : bool := py_ne (id c1) (id c2).

Section Methods.
Context {net : Session}.

Definition reply (self : t) (body : value) : M (nullable t) :=
  let url := _build_url ["comments"] (pull_request_url self) in
  in_reply_to <- lift (py_after_last (_api self) "/") ;;
  resp <- _post url (VDict [("body", body); ("in_reply_to", in_reply_to)]) ;;
  let json := _json resp 201 in
  lift (_instance_or_null Cls.ReviewComment _update_attributes json).

End Methods.
End ReviewComment.

(** ** PullRequest *)

Module PullRequest.

Record t := {
  _api : value;
  base : attr PullDestination.t;
  body : value;
  body_html : value;
  body_text : value;
  additions_count : value;
  deletions_count : value;
  closed_at : attr object;
  comments_count : value;
  comments_url : value;
  commits_count : value;
  commits_url : value;
  created_at : attr object;
  diff_url : value;
  head : attr PullDestination.t;
  html_url : value;
  id : value;
  issue_url : value;
  statuses_url : value;
  links : value;
  merged : value;
  merged_at : attr object;
  mergeable : value;
  mergeable_state : value;
  merged_by : attr object;
  number : value;
  patch_url : value;
  review_comment_url : attr object;
  review_comments_count : value;
  review_comments_url : value;
  repository : value;
  state : value;
  title : value;
  updated_at : attr object;
  user : attr object;
  assignee : attr object
}.

(** [repository] is [base] itself while [base] is falsy (it is then the
    plain value found in the JSON) and [base.repo] once [base] is a
    [PullDestination]. *)
Definition _update_attributes (pull : value) : result t :=
  let? base_ := _class_attribute pull "base"
                  (fun v => PullDestination.__init__ v (VStr "Base")) in
  let? head_ := _class_attribute pull "head"
                  (fun v => PullDestination.__init__ v (VStr "Head")) in
  let? merged_by_ := _class_attribute pull "merged_by" (new Cls.User) in
  let? review_comment_url_ :=
    _class_attribute pull "review_comment_url" (new Cls.URITemplate) in
  let? user_ := _class_attribute pull "user" (new Cls.User) in
  let? assignee_ := _class_attribute pull "assignee" (new Cls.User) in
  Ok {| _api := _get_attribute pull "url" VNone;
        base := base_;
        body := _get_attribute pull "body" VNone;
        body_html := _get_attribute pull "body_html" VNone;
        body_text := _get_attribute pull "body_text" VNone;
        additions_count := _get_attribute pull "additions" VNone;
        deletions_count := _get_attribute pull "deletions" VNone;
        closed_at := _strptime_attribute pull "closed_at";
        comments_count := _get_attribute pull "comments" VNone;
        comments_url := _get_attribute pull "comments_url" VNone;
        commits_count := _get_attribute pull "commits" VNone;
        commits_url := _get_attribute pull "commits_url" VNone;
        created_at := _strptime_attribute pull "created_at";
        diff_url := _get_attribute pull "diff_url" VNone;
        head := head_;
        html_url := _get_attribute pull "html_url" VNone;
        id := _get_attribute pull "id" VNone;
        issue_url := _get_attribute pull "issue_url" VNone;
        statuses_url := _get_attribute pull "statuses_url" VNone;
        links := _get_attribute pull "_links" (VDict []);
        merged := _get_attribute pull "merged" VNone;
        merged_at := _strptime_attribute pull "merged_at";
        mergeable := _get_attribute pull "mergeable" (VBool false);
        mergeable_state := _get_attribute pull "mergeable_state" VNone;
        merged_by := merged_by_;
        number := _get_attribute pull "number" VNone;
        patch_url := _get_attribute pull "patch_url" VNone;
        review_comment_url := review_comment_url_;
        review_comments_count := _get_attribute pull "review_comments" VNone;
        review_comments_url := _get_attribute pull "review_comments_url" VNone;
        repository := match base_ with
                      | Inst d => PullDestination.repo d
                      | Raw v => v
                      end;
        state := _get_attribute pull "state" VNone;
        title := _get_attribute pull "title" VNone;
        updated_at := _strptime_attribute pull "updated_at";
        user := user_;
        assignee := assignee_ |}.

(** Modelled from the spec: [__eq__] and [__ne__], which [pulls.py] inherits
    from the base class (github3/models.py), as the class docstring gives
    them: [p1 == p2] is [p1.id == p2.id] and [p1 != p2] is [p1.id != p2.id]. *)
Definition __eq__ (p1 p2 : t) : bool := py_eq (id p1) (id p2).

Definition __ne__ (p1 p2 : t) : bool := py_ne (id p1) (id p2).

Section Methods.
Context {py : Builtins} {net : Session}.

(** [update] returns its boolean together with the object as the call
    leaves it. *)
Definition update (self : t) (title body state : value) : M (bool * t) :=
  let data := _remove_none [("title", title); ("body", body); ("state", state)] in
  json <- (if truthy (VDict data)
           then resp <- _patch (_api self) (VStr (dumps (VDict data))) ;;
                ret (_json resp 200)
           else ret VNone) ;;
  if truthy json
  then self' <- lift (_update_attributes json) ;; ret (true, self')
  else ret (false, self).

Definition close (self : t) : M (bool * t) :=
  update self (title self) (body self) (VStr "closed").

Definition reopen (self : t) : M (bool * t) :=
  update self (title self) (body self) (VStr "open").

Definition create_comment (self : t) (body : value) : M (nullable object) :=
  let url := comments_url self in
  json <- (if truthy body
           then resp <- _post url (VDict [("body", body)]) ;;
                ret (_json resp 201)
           else ret VNone) ;;
  lift (_instance_or_null Cls.IssueComment (new Cls.IssueComment) json).

Definition create_review_comment (self : t) (body commit_id path position : value)
    : M (nullable ReviewComment.t) :=
  let url := _build_url ["comments"] (_api self) in
  pos <- lift (py_int position) ;;
  let data := VDict [("body", body); ("commit_id", commit_id);
                     ("path", path); ("position", VInt pos)] in
  resp <- _post url data ;;
  let json := _json resp 201 in
  lift (_instance_or_null Cls.ReviewComment ReviewComment._update_attributes json).

Definition diff (self : t) : M (list byte) :=
  resp <- _get (_api self) [("Accept", "application/vnd.github.diff")] ;;
  ret (if _boolean resp 200 404 then content resp else []).

Definition is_merged (self : t) : M value :=
  if truthy (merged self) then ret (merged self)
  else
    let url := _build_url ["merge"] (_api self) in
    resp <- _get url [] ;;
    ret (VBool (_boolean resp 204 404)).

Definition issue (self : t) : M (nullable object) :=
  resp <- _get (issue_url self) [] ;;
  let json := _json resp 200 in
  lift (_instance_or_null Cls.Issue (new Cls.Issue) json).

Definition commits (self : t) (number etag : value) : M GitHubIterator :=
  let url := _build_url ["commits"] (_api self) in
  n <- lift (py_int number) ;;
  ret (_iter n url Cls.RepoCommit etag None).

Definition files (self : t) (number etag : value) : M GitHubIterator :=
  let url := _build_url ["files"] (_api self) in
  n <- lift (py_int number) ;;
  ret (_iter n url Cls.PullFile etag None).

(** The URL that [issue_comments] lists: the [href] of the [comments] link
    when there is one, and otherwise [comments] under the API URL with
    [pulls] replaced by [issues]. *)
Definition issue_comments_url (self : t) : result value :=
  let? comments := py_get_default (links self) "comments" (VDict []) in
  let? url := py_get comments "href" in
  if negb (truthy url)
  then let? base_url := py_replace (_api self) "pulls" "issues" in
       Ok (_build_url ["comments"] base_url)
  else Ok url.

Definition issue_comments (self : t) (number etag : value) : M GitHubIterator :=
  url <- lift (issue_comments_url self) ;;
  n <- lift (py_int number) ;;
  ret (_iter n url Cls.IssueComment etag None).

Definition merge (self : t) (commit_message sha squash : value) : M value :=
  let parameters := [("squash", squash)] in
  let parameters := if truthy sha then dict_set parameters "sha" sha
                    else parameters in
  let parameters := if negb (is_none commit_message)
                    then dict_set parameters "commit_message" commit_message
                    else parameters in
  let url := _build_url ["merge"] (_api self) in
  resp <- _put url (VStr (dumps (VDict parameters))) ;;
  let json := _json resp 200 in
  if negb (truthy json) then ret (VBool false)
  else lift (py_getitem json "merged").

Definition patch (self : t) : M (list byte) :=
  resp <- _get (_api self) [("Accept", "application/vnd.github.patch")] ;;
  ret (if _boolean resp 200 404 then content resp else []).

Definition review_comments (self : t) (number etag : value) : M GitHubIterator :=
  let url := _build_url ["comments"] (_api self) in
  n <- lift (py_int number) ;;
  ret (_iter n url Cls.ReviewComment etag None).

Definition reviews (self : t) (number etag : value) : M GitHubIterator :=
  let headers := [("Accept", "application/vnd.github.black-cat-preview+json")] in
  let url := _build_url ["reviews"] (_api self) in
  n <- lift (py_int number) ;;
  ret (_iter n url Cls.PullReview etag (Some headers)).

End Methods.
End PullRequest.

(** ** The public operations, as one type *)

Inductive pull_request_call :=
| Close
| CreateComment (body : value)
| CreateReviewComment (body commit_id path position : value)
| Diff
| IsMerged
| GetIssue
| Commits (number etag : value)
| Files (number etag : value)
| IssueComments (number etag : value)
| Merge (commit_message sha squash : value)
| Patch
| Reopen
| ReviewComments (number etag : value)
| Reviews (number etag : value)
| Update (title body state : value).

(** A call of a public method defined in [pulls.py] on one of its objects.
    [PullReview] and [PullDestination] define none. *)
Inductive call :=
| OnPullRequest (self : PullRequest.t) (c : pull_request_call)
| OnPullFileContents (self : PullFile.t)
| OnReviewCommentReply (self : ReviewComment.t) (body : value).

Definition void {A} (m : M A) : M unit := _ <- m ;; ret tt.

Section Calls.
Context {py : Builtins} {net : Session}.

Definition run_pull_request (self : PullRequest.t) (c : pull_request_call) : M unit :=
  match c with
  | Close => void (PullRequest.close self)
  | CreateComment body => void (PullRequest.create_comment self body)
  | CreateReviewComment body commit_id path position =>
      void (PullRequest.create_review_comment self body commit_id path position)
  | Diff => void (PullRequest.diff self)
  | IsMerged => void (PullRequest.is_merged self)
  | GetIssue => void (PullRequest.issue self)
  | Commits number etag => void (PullRequest.commits self number etag)
  | Files number etag => void (PullRequest.files self number etag)
  | IssueComments number etag => void (PullRequest.issue_comments self number etag)
  | Merge commit_message sha squash =>
      void (PullRequest.merge self commit_message sha squash)
  | Patch => void (PullRequest.patch self)
  | Reopen => void (PullRequest.reopen self)
  | ReviewComments number etag => void (PullRequest.review_comments self number etag)
  | Reviews number etag => void (PullRequest.reviews self number etag)
  | Update title body state => void (PullRequest.update self title body state)
  end.

Definition run (c : call) : M unit :=
  match c with
  | OnPullRequest self c => run_pull_request self c
  | OnPullFileContents self => void (PullFile.contents self)
  | OnReviewCommentReply self body => void (ReviewComment.reply self body)
  end.

(** Whether a call gets as far as its HTTP verb: the list-returning methods
    only build the lazy sequence; [update], [create_comment] and [is_merged]
    have their guards; [create_review_comment] and [reply] first compute an
    argument, which can fail. *)
Definition reaches_request (c : call) : bool :=
  match c with
  | OnPullRequest self c =>
      match c with
      | Close | Reopen | Diff | Patch | GetIssue | Merge _ _ _ => true
      | CreateComment body => truthy body
      | CreateReviewComment _ _ _ position => is_ok (py_int position)
      | IsMerged => negb (truthy (PullRequest.merged self))
      | Commits _ _ | Files _ _ | IssueComments _ _
      | ReviewComments _ _ | Reviews _ _ => false
      | Update title body state =>
          negb (is_none title && is_none body && is_none state)
      end
  | OnPullFileContents _ => true
  | OnReviewCommentReply self _ =>
      match ReviewComment._api self with VStr _ => true | _ => false end
  end.

End Calls.

(** ** How a field is read off the wire *)

(** The value a field takes from key [k] of the JSON object [d]: what the
    key holds, and [dflt] when the key is missing (or holds null). *)
Definition wire_field (d : dict) (k : string) (dflt : value) : value :=
  match dict_get d k with
  | Some v => if is_none v then dflt else v
  | None => dflt
  end.

(** A field that holds an instance of class [c] built from key [k], and the
    plain value when there is nothing to build it from. *)
Definition wire_instance (d : dict) (k : string) (c : Cls.t) : attr object :=
  let v := wire_field d k VNone in
  if truthy v then Inst (New c v) else Raw v.

(** A field that holds the time stamp under key [k]. *)
Definition wire_time (d : dict) (k : string) : attr object :=
  let v := wire_field d k VNone in
  if truthy v then Inst (New Cls.datetime v) else Raw VNone.

(** What [_instance_or_null] makes of decoded JSON for a class of another
    module. *)
Definition decoded (c : Cls.t) (json : value) : nullable object :=
  match json with
  | VNone => NullObject (Cls.name c)
  | _ => Object (New c json)
  end.

(** The documented fields of each record with the key each is read from
    (and, for [PullRequest], the default). *)
Definition PullFile_fields : list (string * (PullFile.t -> value)) :=
  [("sha", PullFile.sha); ("filename", PullFile.filename);
   ("status", PullFile.status); ("additions", PullFile.additions_count);
   ("deletions", PullFile.deletions_count); ("changes", PullFile.changes_count);
   ("blob_url", PullFile.blob_url); ("raw_url", PullFile.raw_url);
   ("patch", PullFile.patch); ("contents_url", PullFile.contents_url)].

Definition PullReview_fields : list (string * (PullReview.t -> value)) :=
  [("id", PullReview.id); ("commit_id", PullReview.commit_id);
   ("state", PullReview.state); ("body", PullReview.body);
   ("pull_request_url", PullReview.pull_request_url)].

Definition ReviewComment_fields : list (string * (ReviewComment.t -> value)) :=
  [("original_position", ReviewComment.original_position);
   ("path", ReviewComment.path); ("position", ReviewComment.position);
   ("commit_id", ReviewComment.commit_id);
   ("diff_hunk", ReviewComment.diff_hunk);
   ("original_commit_id", ReviewComment.original_commit_id);
   ("pull_request_url", ReviewComment.pull_request_url)].

Definition PullDestination_fields : list (string * (PullDestination.t -> value)) :=
  [("ref", PullDestination.ref); ("label", PullDestination.label);
   ("sha", PullDestination.sha)].

Definition PullRequest_fields : list (string * value * (PullRequest.t -> value)) :=
  [("body", VNone, PullRequest.body);
   ("body_html", VNone, PullRequest.body_html);
   ("body_text", VNone, PullRequest.body_text);
   ("additions", VNone, PullRequest.additions_count);
   ("deletions", VNone, PullRequest.deletions_count);
   ("comments", VNone, PullRequest.comments_count);
   ("comments_url", VNone, PullRequest.comments_url);
   ("commits", VNone, PullRequest.commits_count);
   ("commits_url", VNone, PullRequest.commits_url);
   ("diff_url", VNone, PullRequest.diff_url);
   ("html_url", VNone, PullRequest.html_url);
   ("id", VNone, PullRequest.id);
   ("issue_url", VNone, PullRequest.issue_url);
   ("statuses_url", VNone, PullRequest.statuses_url);
   ("_links", VDict [], PullRequest.links);
   ("merged", VNone, PullRequest.merged);
   ("mergeable", VBool false, PullRequest.mergeable);
   ("mergeable_state", VNone, PullRequest.mergeable_state);
   ("number", VNone, PullRequest.number);
   ("patch_url", VNone, PullRequest.patch_url);
   ("review_comments", VNone, PullRequest.review_comments_count);
   ("review_comments_url", VNone, PullRequest.review_comments_url);
   ("state", VNone, PullRequest.state);
   ("title", VNone, PullRequest.title)].

Definition PullRequest_instances
    : list (string * Cls.t * (PullRequest.t -> attr object)) :=
  [("merged_by", Cls.User, PullRequest.merged_by);
   ("review_comment_url", Cls.URITemplate, PullRequest.review_comment_url);
   ("user", Cls.User, PullRequest.user);
   ("assignee", Cls.User, PullRequest.assignee)].

Definition PullRequest_times : list (string * (PullRequest.t -> attr object)) :=
  [("closed_at", PullRequest.closed_at); ("created_at", PullRequest.created_at);
   ("merged_at", PullRequest.merged_at); ("updated_at", PullRequest.updated_at)].

(** A [base] or [head]: the destination built from key [k] with direction
    [dir], and the plain value when the key holds nothing. *)
Definition wire_destination (d : dict) (k dir : string)
    (a : attr PullDestination.t) : Prop :=
  let v := wire_field d k VNone in
  if truthy v
  then exists pd, PullDestination.__init__ v (VStr dir) = Ok pd /\ a = Inst pd
  else a = Raw v.

(** ** What the requests should hold *)

Definition request_of (v : verb) (url : value) (headers : list (string * string))
    (data : value) : request :=
  {| req_verb := v; req_url := url; req_headers := headers; req_data := data |}.

(** The fields of an update that are not [None], in the order title, body,
    state. *)
Definition non_none_fields (title body state : value) : dict :=
  (if is_none title then [] else [("title", title)])
  ++ (if is_none body then [] else [("body", body)])
  ++ (if is_none state then [] else [("state", state)]).

(** The parameters of a merge: [squash] always, [sha] when it is truthy,
    [commit_message] when it is not [None]. *)
Definition merge_parameters (commit_message sha squash : value) : dict :=
  [("squash", squash)]
  ++ (if truthy sha then [("sha", sha)] else [])
  ++ (if is_none commit_message then [] else [("commit_message", commit_message)]).

(** ** Sample objects and sessions *)

Definition sample_destination (label : string) : value :=
  VDict [("label", VStr label); ("ref", VStr "master"); ("sha", VStr "6dcb09b");
         ("user", VDict [("login", VStr "octocat")]);
         ("repo", VDict [("name", VStr "hello");
                         ("owner", VDict [("login", VStr "octocat")])])].

Definition sample_pull_fields : dict :=
  [("url", VStr "https://api.github.com/repos/octocat/hello/pulls/1");
   ("id", VInt 1); ("number", VInt 1);
   ("title", VStr "new feature"); ("body", VStr "please pull");
   ("state", VStr "open"); ("merged", VBool false);
   ("issue_url", VStr "https://api.github.com/repos/octocat/hello/issues/1");
   ("comments_url",
    VStr "https://api.github.com/repos/octocat/hello/issues/1/comments");
   ("user", VDict [("login", VStr "octocat")]);
   ("created_at", VStr "2011-01-26T19:01:12Z");
   ("base", sample_destination "octocat:master");
   ("head", sample_destination "octocat:topic")].

Definition blank_pull : PullRequest.t :=
  {| PullRequest._api := VNone; PullRequest.base := Raw VNone;
     PullRequest.body := VNone; PullRequest.body_html := VNone;
     PullRequest.body_text := VNone; PullRequest.additions_count := VNone;
     PullRequest.deletions_count := VNone; PullRequest.closed_at := Raw VNone;
     PullRequest.comments_count := VNone; PullRequest.comments_url := VNone;
     PullRequest.commits_count := VNone; PullRequest.commits_url := VNone;
     PullRequest.created_at := Raw VNone; PullRequest.diff_url := VNone;
     PullRequest.head := Raw VNone; PullRequest.html_url := VNone;
     PullRequest.id := VNone; PullRequest.issue_url := VNone;
     PullRequest.statuses_url := VNone; PullRequest.links := VDict [];
     PullRequest.merged := VNone; PullRequest.merged_at := Raw VNone;
     PullRequest.mergeable := VBool false; PullRequest.mergeable_state := VNone;
     PullRequest.merged_by := Raw VNone; PullRequest.number := VNone;
     PullRequest.patch_url := VNone; PullRequest.review_comment_url := Raw VNone;
     PullRequest.review_comments_count := VNone;
     PullRequest.review_comments_url := VNone; PullRequest.repository := VNone;
     PullRequest.state := VNone; PullRequest.title := VNone;
     PullRequest.updated_at := Raw VNone; PullRequest.user := Raw VNone;
     PullRequest.assignee := Raw VNone |}.

Definition pull_of (fields : dict) : PullRequest.t :=
  match PullRequest._update_attributes (VDict fields) with
  | Ok p => p
  | Raise _ => blank_pull
  end.

(** An open pull request, and the same one once it is known to be merged. *)
Definition sample_pull : PullRequest.t := pull_of sample_pull_fields.

Definition merged_pull : PullRequest.t :=
  pull_of (dict_set sample_pull_fields "merged" (VBool true)).

Definition sample_builtins : Builtins :=
  {| dumps := fun v =>
       match v with
       | VDict d => String.concat "," (map fst d)
       | _ => ""
       end;
     int_of_str := fun _ => Raise ValueError |}.

Definition join_url (segments : list string) (base_url : value) : value :=
  match base_url with
  | VStr b => VStr (String.concat "/" (b :: segments))
  | _ => VStr (String.concat "/" ("https://api.github.com" :: segments))
  end.

(** A service that accepts every request. *)
Definition sample_session : Session :=
  {| respond := fun _ req =>
       match req_verb req with
       | GET => {| status_code := 200; content := list_byte_of_string "diff --git a/f b/f";
                   json_body := VDict [("id", VInt 1); ("title", VStr "new feature")] |}
       | POST => {| status_code := 201; content := list_byte_of_string "{...}";
                    json_body := VDict [("id", VInt 9); ("body", VStr "hi")] |}
       | PUT => {| status_code := 200; content := list_byte_of_string "{...}";
                   json_body := VDict [("sha", VStr "6dcb09b"); ("merged", VBool true)] |}
       | PATCH => {| status_code := 200; content := list_byte_of_string "{...}";
                     json_body := VDict (dict_set sample_pull_fields "state"
                                           (VStr "closed")) |}
       end;
     build_url := join_url |}.

(** A service that answers every request with status 200 and an empty JSON
    object. *)
Definition terse_session : Session :=
  {| respond := fun _ _ =>
       {| status_code := 200; content := list_byte_of_string "{}"; json_body := VDict [] |};
     build_url := join_url |}.

(** ** Descriptions used by the further properties *)

(** The HTTP verb of each public method: the reading methods GET, the
    creating ones POST, [merge] PUTs and the updating ones PATCH. *)
Definition verb_of (c : call) : verb :=
  match c with
  | OnPullRequest _ c =>
      match c with
      | Close | Reopen | Update _ _ _ => PATCH
      | CreateComment _ | CreateReviewComment _ _ _ _ => POST
      | Merge _ _ _ => PUT
      | Diff | Patch | IsMerged | GetIssue
      | Commits _ _ | Files _ _ | IssueComments _ _
      | ReviewComments _ _ | Reviews _ _ => GET
      end
  | OnPullFileContents _ => GET
  | OnReviewCommentReply _ _ => POST
  end.

(** No [/] in [s]. *)
Fixpoint slash_free (s : string) : bool :=
  match s with
  | EmptyString => true
  | String c rest => negb (Ascii.eqb c "/") && slash_free rest
  end.

(** [old] occurs somewhere in [s]. *)
Fixpoint contains (old s : string) : bool :=
  match s with
  | EmptyString => String.prefix old s
  | String _ rest => String.prefix old s || contains old rest
  end.

(** In [a ++ rest], no occurrence of [old] starts inside [a]. *)
Fixpoint first_at (old a rest : string) : bool :=
  match a with
  | EmptyString => true
  | String _ a' =>
      negb (String.prefix old (String.append a rest)) && first_at old a' rest
  end.

(** What [_instance_or_null] makes of decoded JSON for a review comment. *)
Definition decoded_comment (json : value) : result (nullable ReviewComment.t) :=
  _instance_or_null Cls.ReviewComment ReviewComment._update_attributes json.

(** ** Further sample objects *)

Definition sample_comment_fields : dict :=
  [("id", VInt 42);
   ("url", VStr "https://api.github.com/repos/octocat/hello/pulls/comments/42");
   ("pull_request_url", VStr "https://api.github.com/repos/octocat/hello/pulls/1");
   ("path", VStr "README.md"); ("position", VInt 3);
   ("commit_id", VStr "6dcb09b")].

Definition blank_comment : ReviewComment.t :=
  {| ReviewComment.id := VNone; ReviewComment._api := VNone;
     ReviewComment.user := Raw VNone; ReviewComment.original_position := VNone;
     ReviewComment.path := VNone; ReviewComment.position := VNone;
     ReviewComment.commit_id := VNone; ReviewComment.diff_hunk := VNone;
     ReviewComment.original_commit_id := VNone;
     ReviewComment.pull_request_url := VNone |}.

Definition sample_comment : ReviewComment.t :=
  match ReviewComment._update_attributes (VDict sample_comment_fields) with
  | Ok c => c
  | Raise _ => blank_comment
  end.

Definition blank_destination : PullDestination.t :=
  {| PullDestination.direction := VNone; PullDestination.ref := VNone;
     PullDestination.label := VNone; PullDestination.user := Raw VNone;
     PullDestination.sha := VNone; PullDestination._repo_name := VStr "";
     PullDestination._repo_owner := VStr ""; PullDestination.repository := None;
     PullDestination.repo := VTuple [VStr ""; VStr ""] |}.

Definition sample_base_fields : dict :=
  [("label", VStr "octocat:master"); ("ref", VStr "master");
   ("repo", VDict [("name", VStr "hello");
                   ("owner", VDict [("login", VStr "octocat")])])].

(** The destination built from [sample_base_fields] as a base. *)
Definition sample_base : PullDestination.t :=
  match PullDestination.__init__ (VDict sample_base_fields) (VStr "Base") with
  | Ok pd => pd
  | Raise _ => blank_destination
  end.

(** The sample pull request with a link to its issue comments. *)
Definition linked_pull : PullRequest.t :=
  pull_of (dict_set sample_pull_fields "_links"
             (VDict [("comments",
                      VDict [("href", VStr "https://example.org/comments")])])).

(** A pull request whose base repository names no owner. *)
Definition ownerless_pull_fields : dict :=
  [("url", VStr "https://api.github.com/repos/octocat/hello/pulls/1");
   ("base", VDict [("label", VStr "octocat:master");
                   ("repo", VDict [("name", VStr "hello")])])].

(** A service that answers every request with status 200 and that pull
    request. *)
Definition ownerless_session : Session :=
  {| respond := fun _ _ =>
       {| status_code := 200; content := list_byte_of_string "{...}";
          json_body := VDict ownerless_pull_fields |};
     build_url := join_url |}.

(** A service that answers every request with status 200 and a JSON object
    that has no [merged] field. *)
Definition message_session : Session :=
  {| respond := fun _ _ =>
       {| status_code := 200; content := list_byte_of_string "{...}";
          json_body := VDict [("message", VStr "Pull Request is not mergeable")] |};
     build_url := join_url |}.

(** * Properties *)

(** ** Reading attributes *)

Lemma rbind_ok {A B} (r : result A) (k : A -> result B) (b : B) :
  rbind r k = Ok b -> exists a, r = Ok a /\ k a = Ok b.
Proof.
  destruct r as [a|e]; simpl; intros H; [eauto | discriminate].
Qed.

Ltac invert_ok H :=
  repeat (apply rbind_ok in H; destruct H as (? & ? & H)).

Lemma wire_field_missing (d : dict) (k : string) (dflt : value) :
  dict_get d k = None -> wire_field d k dflt = dflt.
Proof.
  intros H. unfold wire_field. now rewrite H.
Qed.

Lemma wire_field_present (d : dict) (k : string) (dflt v : value) :
  dict_get d k = Some v -> v <> VNone -> wire_field d k dflt = v.
Proof.
  intros H Hv. unfold wire_field. rewrite H.
  destruct v; simpl; congruence.
Qed.

Lemma _get_attribute_wire (d : dict) (k : string) (dflt : value) :
  _get_attribute (VDict d) k dflt = wire_field d k dflt.
Proof.
  unfold _get_attribute, wire_field.
  destruct (dict_get d k) as [[]|]; reflexivity.
Qed.

Lemma py_get_wire (d : dict) (k : string) :
  py_get (VDict d) k = Ok (wire_field d k VNone).
Proof.
  unfold py_get, wire_field.
  destruct (dict_get d k) as [[]|]; reflexivity.
Qed.

Lemma _class_attribute_new (d : dict) (k : string) (c : Cls.t) :
  _class_attribute (VDict d) k (new c) = Ok (wire_instance d k c).
Proof.
  unfold _class_attribute, wire_instance.
  rewrite _get_attribute_wire.
  destruct (truthy (wire_field d k VNone)); reflexivity.
Qed.

Lemma _strptime_attribute_wire (d : dict) (k : string) :
  _strptime_attribute (VDict d) k = wire_time d k.
Proof.
  unfold _strptime_attribute, wire_time.
  now rewrite _get_attribute_wire.
Qed.

Lemma _class_attribute_destination (d : dict) (k dir : string)
    (a : attr PullDestination.t) :
  _class_attribute (VDict d) k (fun v => PullDestination.__init__ v (VStr dir)) = Ok a ->
  wire_destination d k dir a.
Proof.
  unfold _class_attribute, wire_destination.
  rewrite _get_attribute_wire.
  destruct (truthy (wire_field d k VNone)).
  - destruct (PullDestination.__init__ _ _) as [pd|e] eqn:E; simpl; intros H.
    + exists pd. split; [reflexivity | congruence].
    + discriminate.
  - intros H. congruence.
Qed.

Lemma _class_attribute_falsy {A} (d : dict) (k : string) (cl : value -> result A) :
  truthy (wire_field d k VNone) = false ->
  _class_attribute (VDict d) k cl = Ok (Raw (wire_field d k VNone)).
Proof.
  intros H. unfold _class_attribute.
  rewrite _get_attribute_wire, H. reflexivity.
Qed.

Ltac wire_table :=
  repeat first
    [ apply Forall_nil
    | apply Forall_cons; simpl;
      [ first [ apply _get_attribute_wire | apply _strptime_attribute_wire
              | reflexivity ] | ] ].

Lemma PullFile_from_wire (d : dict) :
  Forall (fun kf => snd kf (PullFile._update_attributes (VDict d))
                    = wire_field d (fst kf) VNone) PullFile_fields.
Proof.
  unfold PullFile_fields. wire_table.
Qed.

Lemma PullReview_from_wire (d : dict) :
  exists r, PullReview._update_attributes (VDict d) = Ok r
    /\ Forall (fun kf => snd kf r = wire_field d (fst kf) VNone) PullReview_fields
    /\ PullReview.user r = wire_instance d "user" Cls.User
    /\ PullReview.created_at r = wire_time d "created_at".
Proof.
  unfold PullReview._update_attributes.
  rewrite _class_attribute_new. simpl.
  eexists. split; [reflexivity|]. simpl.
  split; [unfold PullReview_fields; wire_table|].
  split; [reflexivity | apply _strptime_attribute_wire].
Qed.

Lemma ReviewComment_from_wire (d : dict) :
  exists c, ReviewComment._update_attributes (VDict d) = Ok c
    /\ Forall (fun kf => snd kf c = wire_field d (fst kf) VNone) ReviewComment_fields
    /\ ReviewComment.user c = wire_instance d "user" Cls.User.
Proof.
  unfold ReviewComment._update_attributes.
  rewrite _class_attribute_new. simpl.
  eexists. split; [reflexivity|]. simpl.
  split; [unfold ReviewComment_fields; wire_table | reflexivity].
Qed.

Lemma PullDestination_from_wire (d : dict) (dir : value) (pd : PullDestination.t) :
  PullDestination.__init__ (VDict d) dir = Ok pd ->
  PullDestination.direction pd = dir
  /\ Forall (fun kf => snd kf pd = wire_field d (fst kf) VNone) PullDestination_fields
  /\ PullDestination.user pd =
       (if truthy (wire_field d "user" VNone)
        then Inst (New Cls.User (wire_field d "user" VNone))
        else Raw VNone).
Proof.
  unfold PullDestination.__init__.
  rewrite !py_get_wire. cbn [rbind].
  destruct (truthy (wire_field d "repo" VNone)); intros H.
  - invert_ok H. injection H as <-. cbn.
    split; [reflexivity|]. split; [|reflexivity].
    unfold PullDestination_fields. wire_table.
  - injection H as <-. cbn.
    split; [reflexivity|]. split; [|reflexivity].
    unfold PullDestination_fields. wire_table.
Qed.

Lemma PullDestination_without_repo (d : dict) (dir : value) :
  truthy (wire_field d "repo" VNone) = false ->
  exists pd, PullDestination.__init__ (VDict d) dir = Ok pd
    /\ PullDestination.repo pd = VTuple [VStr ""; VStr ""].
Proof.
  intros H. unfold PullDestination.__init__.
  rewrite !py_get_wire. cbn [rbind]. rewrite H.
  eexists. split; reflexivity.
Qed.

Lemma PullRequest_from_wire (d : dict) (p : PullRequest.t) :
  PullRequest._update_attributes (VDict d) = Ok p ->
  Forall (fun kdf => snd kdf p = wire_field d (fst (fst kdf)) (snd (fst kdf)))
    PullRequest_fields
  /\ Forall (fun kcf => snd kcf p = wire_instance d (fst (fst kcf)) (snd (fst kcf)))
       PullRequest_instances
  /\ Forall (fun kf => snd kf p = wire_time d (fst kf)) PullRequest_times
  /\ wire_destination d "base" "Base" (PullRequest.base p)
  /\ wire_destination d "head" "Head" (PullRequest.head p)
  /\ PullRequest.repository p =
       match PullRequest.base p with
       | Inst pd => PullDestination.repo pd
       | Raw v => v
       end.
Proof.
  unfold PullRequest._update_attributes.
  rewrite !_class_attribute_new.
  destruct (_class_attribute (VDict d) "base" _) as [b|] eqn:Eb; [|discriminate].
  destruct (_class_attribute (VDict d) "head" _) as [h|] eqn:Eh; [|discriminate].
  simpl. intros H. injection H as <-. simpl.
  apply _class_attribute_destination in Eb, Eh.
  repeat split; try assumption.
  - unfold PullRequest_fields. wire_table.
  - unfold PullRequest_instances. wire_table.
  - unfold PullRequest_times. wire_table.
Qed.

Lemma PullRequest_without_destinations (d : dict) :
  truthy (wire_field d "base" VNone) = false ->
  truthy (wire_field d "head" VNone) = false ->
  exists p, PullRequest._update_attributes (VDict d) = Ok p.
Proof.
  intros Hb Hh. unfold PullRequest._update_attributes.
  rewrite !_class_attribute_new.
  rewrite (_class_attribute_falsy d "base" _ Hb).
  rewrite (_class_attribute_falsy d "head" _ Hh).
  simpl. eexists. reflexivity.
Qed.

(** ** Calls on the session *)

Lemma _instance_or_null_new (c : Cls.t) (json : value) :
  _instance_or_null c (new c) json = Ok (decoded c json).
Proof.
  destruct json; reflexivity.
Qed.

Lemma _remove_none_fields (title body state : value) :
  _remove_none [("title", title); ("body", body); ("state", state)]
  = non_none_fields title body state.
Proof.
  unfold _remove_none, non_none_fields. simpl.
  destruct (is_none title), (is_none body), (is_none state); reflexivity.
Qed.

Lemma non_none_fields_empty (title body state : value) :
  truthy (VDict (non_none_fields title body state))
  = negb (is_none title && is_none body && is_none state).
Proof.
  unfold non_none_fields.
  destruct (is_none title), (is_none body), (is_none state); reflexivity.
Qed.

Lemma non_none_fields_exact (title body state : value) (k : string) (v : value) :
  In (k, v) (non_none_fields title body state) <->
  v <> VNone /\ In (k, v) [("title", title); ("body", body); ("state", state)].
Proof.
  assert (N : forall x, is_none x = true <-> x = VNone)
    by (intros []; simpl; split; congruence).
  unfold non_none_fields. rewrite !in_app_iff. simpl.
  destruct (is_none title) eqn:Et, (is_none body) eqn:Eb,
           (is_none state) eqn:Es; simpl;
    try apply N in Et; try apply N in Eb; try apply N in Es; subst;
    (split;
     [ intros H; decompose [or] H; clear H;
       try contradiction;
       match goal with
       | E : (_, _) = (_, _) |- _ => injection E as <- <-
       end;
       (split; [ intros ->; simpl in *; discriminate | tauto ])
     | intros [Hv H]; decompose [or] H; clear H;
       try contradiction;
       match goal with
       | E : (_, _) = (_, _) |- _ => injection E as <- <-
       end;
       first [ congruence | tauto ] ]).
Qed.

Lemma merge_parameters_built (commit_message sha squash : value) :
  (let parameters := [("squash", squash)] in
   let parameters := if truthy sha then dict_set parameters "sha" sha
                     else parameters in
   if negb (is_none commit_message)
   then dict_set parameters "commit_message" commit_message
   else parameters)
  = merge_parameters commit_message sha squash.
Proof.
  unfold merge_parameters.
  destruct (truthy sha), (is_none commit_message); reflexivity.
Qed.

Section Runs.
Context {py : Builtins} {net : Session}.

Lemma perform_run (v : verb) (url : value) (headers : list (string * string))
    (data : value) (log : list request) :
  perform v url headers data log
  = (Ok (respond log (request_of v url headers data)),
     log ++ [request_of v url headers data]).
Proof. reflexivity. Qed.

Lemma bind_perform {B} (v : verb) (url : value) (headers : list (string * string))
    (data : value) (k : response -> M B) (log : list request) :
  bind (perform v url headers data) k log
  = k (respond log (request_of v url headers data))
      (log ++ [request_of v url headers data]).
Proof. reflexivity. Qed.

Lemma bind_lift {A B} (r : result A) (k : A -> M B) (log : list request) :
  bind (lift r) k log
  = match r with
    | Ok a => k a log
    | Raise e => (Raise e, log)
    end.
Proof. destruct r; reflexivity. Qed.

Lemma void_run {A} (m : M A) (log : list request) :
  snd (void m log) = snd (m log).
Proof.
  unfold void, bind. destruct (m log) as [[a|e] log']; reflexivity.
Qed.

Lemma update_run (self : PullRequest.t) (title body state : value)
    (log : list request) :
  let data := non_none_fields title body state in
  let req := request_of PATCH (PullRequest._api self) [] (VStr (dumps (VDict data))) in
  let json := _json (respond log req) 200 in
  PullRequest.update self title body state log =
    if is_none title && is_none body && is_none state
    then (Ok (false, self), log)
    else if truthy json
         then (let? self' := PullRequest._update_attributes json in Ok (true, self'),
               log ++ [req])
         else (Ok (false, self), log ++ [req]).
Proof.
  intros data req json. unfold PullRequest.update.
  rewrite _remove_none_fields. fold data.
  pose proof (non_none_fields_empty title body state) as E. fold data in E.
  unfold bind at 1. rewrite E.
  destruct (is_none title && is_none body && is_none state); cbn [negb].
  - reflexivity.
  - unfold _patch. rewrite bind_perform. fold req. unfold ret at 1. fold json.
    destruct (truthy json); [|reflexivity].
    rewrite bind_lift.
    destruct (PullRequest._update_attributes json); reflexivity.
Qed.

Lemma create_comment_run (self : PullRequest.t) (body : value) (log : list request) :
  let req := request_of POST (PullRequest.comments_url self) []
               (VDict [("body", body)]) in
  PullRequest.create_comment self body log =
    if truthy body
    then (Ok (decoded Cls.IssueComment (_json (respond log req) 201)), log ++ [req])
    else (Ok (NullObject "IssueComment"), log).
Proof.
  intros req. unfold PullRequest.create_comment, bind at 1.
  destruct (truthy body).
  - unfold _post. rewrite bind_perform. fold req. unfold ret.
    unfold lift. now rewrite _instance_or_null_new.
  - reflexivity.
Qed.

Lemma issue_run (self : PullRequest.t) (log : list request) :
  let req := request_of GET (PullRequest.issue_url self) [] VNone in
  PullRequest.issue self log =
    (Ok (decoded Cls.Issue (_json (respond log req) 200)), log ++ [req]).
Proof.
  intros req. unfold PullRequest.issue, _get. rewrite bind_perform.
  unfold lift. now rewrite _instance_or_null_new.
Qed.

Lemma contents_run (self : PullFile.t) (log : list request) :
  let req := request_of GET (PullFile.contents_url self) [] VNone in
  PullFile.contents self log =
    (Ok (decoded Cls.Contents (_json (respond log req) 200)), log ++ [req]).
Proof.
  intros req. unfold PullFile.contents, _get. rewrite bind_perform.
  unfold lift. now rewrite _instance_or_null_new.
Qed.

Lemma is_merged_run (self : PullRequest.t) (log : list request) :
  let req := request_of GET (_build_url ["merge"] (PullRequest._api self)) [] VNone in
  PullRequest.is_merged self log =
    if truthy (PullRequest.merged self)
    then (Ok (PullRequest.merged self), log)
    else (Ok (VBool (status_code (respond log req) =? 204)), log ++ [req]).
Proof.
  intros req. unfold PullRequest.is_merged.
  destruct (truthy (PullRequest.merged self)); reflexivity.
Qed.

Lemma merge_run (self : PullRequest.t) (commit_message sha squash : value)
    (log : list request) :
  let req := request_of PUT (_build_url ["merge"] (PullRequest._api self)) []
               (VStr (dumps (VDict (merge_parameters commit_message sha squash)))) in
  let json := _json (respond log req) 200 in
  PullRequest.merge self commit_message sha squash log =
    (if negb (truthy json) then Ok (VBool false) else py_getitem json "merged",
     log ++ [req]).
Proof.
  intros req json. unfold PullRequest.merge.
  rewrite merge_parameters_built. unfold _put. rewrite bind_perform.
  fold req. fold json.
  destruct (truthy json); reflexivity.
Qed.

Lemma create_review_comment_log (self : PullRequest.t)
    (body commit_id path position : value) (log : list request) :
  exists req,
    snd (PullRequest.create_review_comment self body commit_id path position log)
    = if is_ok (py_int position) then log ++ [req] else log.
Proof.
  unfold PullRequest.create_review_comment. rewrite bind_lift.
  destruct (py_int position) as [n|e]; cbn [is_ok].
  - unfold _post. rewrite bind_perform. unfold lift. cbn [snd].
    eexists. reflexivity.
  - exists (request_of GET VNone [] VNone). reflexivity.
Qed.

Lemma reply_log (self : ReviewComment.t) (body : value) (log : list request) :
  exists req,
    snd (ReviewComment.reply self body log)
    = match ReviewComment._api self with
      | VStr _ => log ++ [req]
      | _ => log
      end.
Proof.
  unfold ReviewComment.reply. rewrite bind_lift.
  destruct (ReviewComment._api self); cbn [py_after_last];
    try (exists (request_of GET VNone [] VNone); reflexivity).
  unfold _post. rewrite bind_perform. unfold lift. cbn [snd].
  eexists. reflexivity.
Qed.

Lemma iterator_run (r : result Z) (f : Z -> GitHubIterator) (log : list request) :
  bind (lift r) (fun n => ret (f n)) log = (let? n := r in Ok (f n), log).
Proof.
  rewrite bind_lift. destruct r; reflexivity.
Qed.

Lemma issue_comments_run (self : PullRequest.t) (number etag : value)
    (log : list request) :
  PullRequest.issue_comments self number etag log =
    (let? url := PullRequest.issue_comments_url self in
     let? n := py_int number in
     Ok (_iter n url Cls.IssueComment etag None), log).
Proof.
  unfold PullRequest.issue_comments. rewrite bind_lift.
  destruct (PullRequest.issue_comments_url self) as [url|e]; [|reflexivity].
  apply iterator_run.
Qed.

End Runs.

(** ** The claims about the calls *)

Section Claims.
Context {py : Builtins} {net : Session}.

Ltac one_request := eexists [_]; split; reflexivity.
Ltac no_request := exists []; split; [now rewrite app_nil_r | reflexivity].

Lemma run_extends_the_log (c : call) (log : list request) :
  exists reqs,
    snd (run c log) = log ++ reqs
    /\ length reqs = (if reaches_request c then 1 else 0)%nat.
Proof.
  destruct c as [self c | self | self body];
    [destruct c|..]; unfold run, run_pull_request; rewrite void_run;
    cbn [reaches_request].
  - unfold PullRequest.close. rewrite update_run.
    cbn [is_none]. rewrite andb_false_r.
    destruct (truthy _); one_request.
  - rewrite create_comment_run. destruct (truthy body); [one_request | no_request].
  - destruct (create_review_comment_log self body commit_id path position log)
      as [req ->].
    destruct (is_ok (py_int position)); [one_request | no_request].
  - unfold PullRequest.diff, _get. rewrite bind_perform. one_request.
  - rewrite is_merged_run.
    destruct (truthy (PullRequest.merged self)); [no_request | one_request].
  - rewrite issue_run. one_request.
  - unfold PullRequest.commits. cbv zeta. rewrite iterator_run. no_request.
  - unfold PullRequest.files. cbv zeta. rewrite iterator_run. no_request.
  - rewrite issue_comments_run. no_request.
  - rewrite merge_run. one_request.
  - unfold PullRequest.patch, _get. rewrite bind_perform. one_request.
  - unfold PullRequest.reopen. rewrite update_run.
    cbn [is_none]. rewrite andb_false_r.
    destruct (truthy _); one_request.
  - unfold PullRequest.review_comments. cbv zeta. rewrite iterator_run. no_request.
  - unfold PullRequest.reviews. cbv zeta. rewrite iterator_run. no_request.
  - rewrite update_run.
    destruct (is_none title && is_none body && is_none state);
      [no_request|].
    destruct (truthy _); one_request.
  - rewrite contents_run. one_request.
  - destruct (reply_log self body log) as [req ->].
    destruct (ReviewComment._api self); first [one_request | no_request].
Qed.

(** C1, amended.  A call of a public method of [pulls.py] extends the log of
    requests by at most one request, and by exactly one when it reaches its
    HTTP verb: the five list-returning methods only build the lazy sequence,
    [update] with nothing but [None], [create_comment] with a falsy body and
    [is_merged] on a pull request known to be merged return without a request,
    and [create_review_comment] and [reply] issue theirs once the position
    converts to an integer and the comment has an API URL to take its number
    from.  Every other call issues one request, whatever the response. *)
Theorem a_call_issues_at_most_one_request (c : call) (log : list request) :
  snd (run c log) = log ++ issued (run c) log
  /\ length (issued (run c) log) = (if reaches_request c then 1 else 0)%nat.
Proof.
  destruct (run_extends_the_log c log) as (reqs & E & L).
  unfold issued. rewrite E, skipn_app, skipn_all, Nat.sub_diag.
  cbn [skipn app]. split; [reflexivity | exact L].
Qed.

(** C3.  Each of the five list-returning methods of a pull request hands the
    count converted to an integer, the URL of its endpoint and the class of
    the elements to the one helper [_iter], and returns the lazy sequence the
    helper builds, without a request of its own (a count that [int] rejects
    raises instead).  The endpoint is [commits], [files], [comments] or
    [reviews] under the API URL; for [issue_comments] it is the [href] of
    the [comments] entry of the links when that is truthy, and otherwise
    [comments] under the API URL with [pulls] replaced by [issues]. *)
Theorem list_methods_return_the_lazy_sequence (self : PullRequest.t)
    (number etag : value) (log : list request) :
  let under segment := _build_url [segment] (PullRequest._api self) in
  let lazy url cls headers :=
    (let? n := py_int number in Ok (_iter n url cls etag headers), log) in
  PullRequest.commits self number etag log
    = lazy (under "commits") Cls.RepoCommit None
  /\ PullRequest.files self number etag log
    = lazy (under "files") Cls.PullFile None
  /\ PullRequest.review_comments self number etag log
    = lazy (under "comments") Cls.ReviewComment None
  /\ PullRequest.reviews self number etag log
    = lazy (under "reviews") Cls.PullReview
        (Some [("Accept", "application/vnd.github.black-cat-preview+json")])
  /\ PullRequest.issue_comments self number etag log
    = (let? comments :=
         py_get_default (PullRequest.links self) "comments" (VDict []) in
       let? href := py_get comments "href" in
       let? url :=
         (if truthy href then Ok href
          else let? issue := py_replace (PullRequest._api self) "pulls" "issues" in
               Ok (_build_url ["comments"] issue)) in
       let? n := py_int number in
       Ok (_iter n url Cls.IssueComment etag None), log).
Proof.
  intros under lazy.
  unfold PullRequest.commits, PullRequest.files, PullRequest.review_comments,
    PullRequest.reviews.
  cbv zeta. rewrite issue_comments_run, !iterator_run.
  repeat split.
  unfold PullRequest.issue_comments_url.
  destruct (py_get_default _ _ _) as [comments|]; [|reflexivity].
  cbn [rbind].
  destruct (py_get comments "href") as [href|]; [|reflexivity].
  cbn [rbind].
  destruct (truthy href); [reflexivity|]. cbn [negb].
  destruct (py_replace _ _ _); reflexivity.
Qed.

(** C4, amended.  The follow-on calls go to the URLs stored on the object:
    [issue] is one GET on [issue_url] decoded (at status 200) into an
    [Issue], [contents] is one GET on [contents_url] decoded into a
    [Contents], and [create_comment] with a truthy body is one POST of that
    body to [comments_url] decoded (at status 201) into an [IssueComment],
    while with a falsy body it makes no request and returns the null
    object.  The three URLs are the ones found in the JSON the object was
    built from. *)
Theorem follow_on_calls_use_the_stored_urls :
  (forall self log,
     let req := request_of GET (PullRequest.issue_url self) [] VNone in
     PullRequest.issue self log
     = (Ok (decoded Cls.Issue (_json (respond log req) 200)), log ++ [req]))
  /\ (forall self log,
     let req := request_of GET (PullFile.contents_url self) [] VNone in
     PullFile.contents self log
     = (Ok (decoded Cls.Contents (_json (respond log req) 200)), log ++ [req]))
  /\ (forall self body log,
     let req := request_of POST (PullRequest.comments_url self) []
                  (VDict [("body", body)]) in
     PullRequest.create_comment self body log
     = if truthy body
       then (Ok (decoded Cls.IssueComment (_json (respond log req) 201)),
             log ++ [req])
       else (Ok (NullObject "IssueComment"), log))
  /\ (forall d self,
     PullRequest._update_attributes (VDict d) = Ok self ->
     PullRequest.issue_url self = wire_field d "issue_url" VNone
     /\ PullRequest.comments_url self = wire_field d "comments_url" VNone)
  /\ (forall d,
     PullFile.contents_url (PullFile._update_attributes (VDict d))
     = wire_field d "contents_url" VNone).
Proof.
  split; [exact issue_run|].
  split; [exact contents_run|].
  split; [exact create_comment_run|].
  split.
  - intros d self H. unfold PullRequest._update_attributes in H.
    invert_ok H. injection H as <-. cbn.
    split; apply _get_attribute_wire.
  - intros d. apply _get_attribute_wire.
Qed.

(** C5, amended.  With at least one of title, body and state not [None],
    [update] makes a single PATCH to the API URL whose payload is the
    serialised dictionary of exactly the fields that are not [None].  When
    the response has status 200 and decodes to a truthy value (a non-empty
    JSON object), the attributes are populated again from it and the call
    returns [True], an exception of that population propagating; when the
    status is another one or the decoded value is falsy (null, or the empty
    object), the call returns [False] and leaves the object as it was. *)
Theorem update_patches_the_fields_given (self : PullRequest.t)
    (title body state : value) (log : list request) :
  is_none title && is_none body && is_none state = false ->
  let data := non_none_fields title body state in
  let req := request_of PATCH (PullRequest._api self) [] (VStr (dumps (VDict data))) in
  let resp := respond log req in
  let json := if status_code resp =? 200 then json_body resp else VNone in
  (forall k v, In (k, v) data <->
     v <> VNone /\ In (k, v) [("title", title); ("body", body); ("state", state)])
  /\ snd (PullRequest.update self title body state log) = log ++ [req]
  /\ fst (PullRequest.update self title body state log)
     = if truthy json
       then let? self' := PullRequest._update_attributes json in Ok (true, self')
       else Ok (false, self).
Proof.
  intros Hsome data req resp json.
  split; [intros k v; apply non_none_fields_exact|].
  rewrite update_run, Hsome. fold data req.
  change (_json (respond log req) 200) with json.
  destruct (truthy json); split; reflexivity.
Qed.

(** C6, amended.  [merge] makes a single PUT to [merge] under the API URL.
    Its payload is the serialised dictionary that always holds [squash],
    holds [sha] when [sha] is truthy and [commit_message] when it is not
    [None].  It returns [False] when the response decoded at status 200 is
    null or any other falsy value (the empty object), and otherwise the
    result of looking up [merged] in the response: the value of that field
    when the response has one. *)
Theorem merge_puts_its_parameters (self : PullRequest.t)
    (commit_message sha squash : value) (log : list request) :
  let parameters := merge_parameters commit_message sha squash in
  let req := request_of PUT (_build_url ["merge"] (PullRequest._api self)) []
               (VStr (dumps (VDict parameters))) in
  let resp := respond log req in
  let json := if status_code resp =? 200 then json_body resp else VNone in
  let result := fst (PullRequest.merge self commit_message sha squash log) in
  snd (PullRequest.merge self commit_message sha squash log) = log ++ [req]
  /\ result = (if truthy json then py_getitem json "merged" else Ok (VBool false))
  /\ (json = VNone -> result = Ok (VBool false))
  /\ (forall d v, json = VDict d -> dict_get d "merged" = Some v -> result = Ok v).
Proof.
  intros parameters req resp json result. subst result.
  rewrite merge_run. fold parameters req.
  change (_json (respond log req) 200) with json. cbn [fst snd].
  split; [reflexivity|]. split; [|split].
  - destruct (truthy json); reflexivity.
  - intros ->. reflexivity.
  - intros d v -> Hv.
    destruct d as [|kv d]; [discriminate|].
    cbn [truthy negb py_getitem]. now rewrite Hv.
Qed.

(** C7.  [diff] and [patch] each make a single GET on the API URL with the
    header [Accept: application/vnd.github.diff] (respectively [.patch]) and
    return the raw body of the response when its status is 200 and the empty
    byte string otherwise. *)
Theorem diff_and_patch_get_the_raw_body (self : PullRequest.t) (log : list request) :
  let get accept :=
    request_of GET (PullRequest._api self) [("Accept", accept)] VNone in
  let body accept :=
    let resp := respond log (get accept) in
    if status_code resp =? 200 then content resp else [] in
  PullRequest.diff self log
    = (Ok (body "application/vnd.github.diff"),
       log ++ [get "application/vnd.github.diff"])
  /\ PullRequest.patch self log
    = (Ok (body "application/vnd.github.patch"),
       log ++ [get "application/vnd.github.patch"]).
Proof.
  split; reflexivity.
Qed.

(** C9.  [update] with title, body and state all [None] makes no request,
    returns [False] and leaves the pull request as it was. *)
Theorem update_with_nothing_to_change (self : PullRequest.t) (log : list request) :
  issued (PullRequest.update self VNone VNone VNone) log = []
  /\ snd (PullRequest.update self VNone VNone VNone log) = log
  /\ fst (PullRequest.update self VNone VNone VNone log) = Ok (false, self).
Proof.
  rewrite update_run. cbn [is_none andb fst snd].
  unfold issued. rewrite update_run. cbn [is_none andb snd].
  rewrite skipn_all. repeat split.
Qed.

(** C10.  When the [merged] attribute is truthy, [is_merged] returns it and
    makes no request; when it is falsy, [is_merged] makes one GET on [merge]
    under the API URL and returns [True] exactly when the response has
    status 204 (so [False] on 404). *)
Theorem is_merged_asks_only_when_unknown (self : PullRequest.t)
    (log : list request) :
  let req := request_of GET (_build_url ["merge"] (PullRequest._api self)) [] VNone in
  PullRequest.is_merged self log
  = if truthy (PullRequest.merged self)
    then (Ok (PullRequest.merged self), log)
    else (Ok (VBool (status_code (respond log req) =? 204)), log ++ [req]).
Proof.
  exact (is_merged_run self log).
Qed.

End Claims.

(** ** The claims about the records *)

(** C2, amended.  [PullFile], [PullReview], [ReviewComment] and [PullRequest]
    are built from one JSON object, and each documented field is read from
    its key of that object: a plain field holds what the key holds, a field
    of a class holds the instance built from it, a time stamp the parsed
    time, and a missing key leaves the field's null or default value ([{}]
    for [links], [False] for [mergeable], [None] elsewhere).  [base] and
    [head] are the [PullDestination]s of those keys, and [repository] is the
    [repo] pair of [base].  A [PullDestination] is built from a JSON object
    and a direction: [direction] is that second argument, and [ref], [label],
    [sha] and [user] are read from the object.  Construction goes through
    whenever the object has no [base] and [head] (for a destination: no
    [repo]) to take apart. *)
Theorem records_are_read_from_wire_json :
  (forall d, Forall (fun kf => snd kf (PullFile._update_attributes (VDict d))
                               = wire_field d (fst kf) VNone) PullFile_fields)
  /\ (forall d, exists r,
        PullReview._update_attributes (VDict d) = Ok r
        /\ Forall (fun kf => snd kf r = wire_field d (fst kf) VNone) PullReview_fields
        /\ PullReview.user r = wire_instance d "user" Cls.User
        /\ PullReview.created_at r = wire_time d "created_at")
  /\ (forall d, exists c,
        ReviewComment._update_attributes (VDict d) = Ok c
        /\ Forall (fun kf => snd kf c = wire_field d (fst kf) VNone)
             ReviewComment_fields
        /\ ReviewComment.user c = wire_instance d "user" Cls.User)
  /\ (forall d dir pd,
        PullDestination.__init__ (VDict d) dir = Ok pd ->
        PullDestination.direction pd = dir
        /\ Forall (fun kf => snd kf pd = wire_field d (fst kf) VNone)
             PullDestination_fields
        /\ PullDestination.user pd =
             (if truthy (wire_field d "user" VNone)
              then Inst (New Cls.User (wire_field d "user" VNone))
              else Raw VNone))
  /\ (forall d dir,
        truthy (wire_field d "repo" VNone) = false ->
        exists pd, PullDestination.__init__ (VDict d) dir = Ok pd
                   /\ PullDestination.repo pd = VTuple [VStr ""; VStr ""])
  /\ (forall d p,
        PullRequest._update_attributes (VDict d) = Ok p ->
        Forall (fun kdf => snd kdf p = wire_field d (fst (fst kdf)) (snd (fst kdf)))
          PullRequest_fields
        /\ Forall (fun kcf => snd kcf p
                              = wire_instance d (fst (fst kcf)) (snd (fst kcf)))
             PullRequest_instances
        /\ Forall (fun kf => snd kf p = wire_time d (fst kf)) PullRequest_times
        /\ wire_destination d "base" "Base" (PullRequest.base p)
        /\ wire_destination d "head" "Head" (PullRequest.head p)
        /\ PullRequest.repository p =
             match PullRequest.base p with
             | Inst pd => PullDestination.repo pd
             | Raw v => v
             end)
  /\ (forall d,
        truthy (wire_field d "base" VNone) = false ->
        truthy (wire_field d "head" VNone) = false ->
        exists p, PullRequest._update_attributes (VDict d) = Ok p)
  /\ (forall d k dflt, dict_get d k = None -> wire_field d k dflt = dflt).
Proof.
  split; [exact PullFile_from_wire|].
  split; [exact PullReview_from_wire|].
  split; [exact ReviewComment_from_wire|].
  split; [exact PullDestination_from_wire|].
  split; [exact PullDestination_without_repo|].
  split; [exact PullRequest_from_wire|].
  split; [exact PullRequest_without_destinations | exact wire_field_missing].
Qed.

Lemma PullRequest_id_from_wire (d : dict) (p : PullRequest.t) :
  PullRequest._update_attributes (VDict d) = Ok p ->
  PullRequest.id p = wire_field d "id" VNone.
Proof.
  intros H. unfold PullRequest._update_attributes in H.
  invert_ok H. injection H as <-. cbn. apply _get_attribute_wire.
Qed.

Lemma ReviewComment_id_from_wire (d : dict) (c : ReviewComment.t) :
  ReviewComment._update_attributes (VDict d) = Ok c ->
  ReviewComment.id c = wire_field d "id" VNone.
Proof.
  intros H.
  unfold ReviewComment._update_attributes, BaseComment_update_attributes in H.
  cbn [rbind] in H. invert_ok H. injection H as <-.
  cbn. apply _get_attribute_wire.
Qed.

(** C8.  Two pull requests are equal exactly when their ids are equal and
    differ exactly when their ids differ, and so do two review comments; for
    objects built from JSON, the ids compared are the ones under the key
    [id]. *)
Theorem equality_is_equality_of_ids :
  (forall p1 p2 : PullRequest.t,
     PullRequest.__eq__ p1 p2 = py_eq (PullRequest.id p1) (PullRequest.id p2)
     /\ PullRequest.__ne__ p1 p2 = py_ne (PullRequest.id p1) (PullRequest.id p2))
  /\ (forall c1 c2 : ReviewComment.t,
     ReviewComment.__eq__ c1 c2 = py_eq (ReviewComment.id c1) (ReviewComment.id c2)
     /\ ReviewComment.__ne__ c1 c2
        = py_ne (ReviewComment.id c1) (ReviewComment.id c2))
  /\ (forall d1 d2 p1 p2,
     PullRequest._update_attributes (VDict d1) = Ok p1 ->
     PullRequest._update_attributes (VDict d2) = Ok p2 ->
     (PullRequest.__eq__ p1 p2 = true <->
      py_eq (wire_field d1 "id" VNone) (wire_field d2 "id" VNone) = true)
     /\ (PullRequest.__ne__ p1 p2 = true <->
         py_eq (wire_field d1 "id" VNone) (wire_field d2 "id" VNone) = false))
  /\ (forall d1 d2 c1 c2,
     ReviewComment._update_attributes (VDict d1) = Ok c1 ->
     ReviewComment._update_attributes (VDict d2) = Ok c2 ->
     (ReviewComment.__eq__ c1 c2 = true <->
      py_eq (wire_field d1 "id" VNone) (wire_field d2 "id" VNone) = true)
     /\ (ReviewComment.__ne__ c1 c2 = true <->
         py_eq (wire_field d1 "id" VNone) (wire_field d2 "id" VNone) = false)).
Proof.
  split; [intros; split; reflexivity|].
  split; [intros; split; reflexivity|].
  split.
  - intros d1 d2 p1 p2 H1 H2.
    unfold PullRequest.__eq__, PullRequest.__ne__, py_ne.
    rewrite (PullRequest_id_from_wire _ _ H1), (PullRequest_id_from_wire _ _ H2).
    destruct (py_eq _ _); cbn; intuition congruence.
  - intros d1 d2 c1 c2 H1 H2.
    unfold ReviewComment.__eq__, ReviewComment.__ne__, py_ne.
    rewrite (ReviewComment_id_from_wire _ _ H1), (ReviewComment_id_from_wire _ _ H2).
    destruct (py_eq _ _); cbn; intuition congruence.
Qed.

(** ** Where the claims as first stated fail *)

(** C1 as first stated (every call issues exactly one request) fails on
    [is_merged]: for a pull request whose [merged] attribute is true it
    answers from the attribute and hands the session nothing. *)
Lemma is_merged_on_a_merged_pull_sends_nothing :
  PullRequest.merged merged_pull = VBool true
  /\ PullRequest.is_merged (net := sample_session) merged_pull []
     = (Ok (VBool true), []).
Proof.
  split; reflexivity.
Qed.

(** C2 as first stated (every documented field is read from the JSON
    object) fails on [PullDestination.direction]: no function of the JSON
    object gives it, since the same object is built once with direction
    [Base] and once with [Head]. *)
Lemma direction_is_not_read_from_the_json :
  ~ exists from_wire : value -> value,
      forall dest direction pd,
        PullDestination.__init__ dest direction = Ok pd ->
        PullDestination.direction pd = from_wire dest.
Proof.
  intros [from_wire H].
  pose proof (H (VDict []) (VStr "Base") _ eq_refl) as Hb.
  pose proof (H (VDict []) (VStr "Head") _ eq_refl) as Hh.
  cbn in Hb, Hh. congruence.
Qed.

(** C4 as first stated ([create_comment(body)] performs a POST) fails on the
    empty body: no request is made and the null object comes back. *)
Lemma create_comment_with_an_empty_body_sends_nothing :
  PullRequest.create_comment (net := sample_session) sample_pull (VStr "") []
  = (Ok (NullObject "IssueComment"), []).
Proof.
  reflexivity.
Qed.

(** C5 as first stated (a non-null JSON object at status 200 makes [update]
    return [True]) fails on the empty object: the response has status 200
    and decodes to [{}], and [update] returns [False] with the pull request
    unchanged. *)
Lemma update_returns_false_on_an_empty_object :
  let req := request_of PATCH (PullRequest._api sample_pull) []
               (VStr (dumps (Builtins := sample_builtins)
                        (VDict [("state", VStr "closed")]))) in
  status_code (respond (Session := terse_session) [] req) = 200
  /\ json_body (respond (Session := terse_session) [] req) = VDict []
  /\ PullRequest.update (py := sample_builtins) (net := terse_session)
       sample_pull VNone VNone (VStr "closed") []
     = (Ok (false, sample_pull), [req]).
Proof.
  repeat split.
Qed.

(** C6 as first stated (a response that is not null yields the value of
    its [merged] field) fails on the empty object: the response has status
    200 and decodes to [{}], which has no such field, and [merge] returns
    [False]. *)
Lemma merge_returns_false_on_an_empty_object :
  let req := request_of PUT (_build_url (net := terse_session) ["merge"]
                               (PullRequest._api sample_pull)) []
               (VStr (dumps (Builtins := sample_builtins)
                        (VDict [("squash", VBool false)]))) in
  status_code (respond (Session := terse_session) [] req) = 200
  /\ json_body (respond (Session := terse_session) [] req) = VDict []
  /\ py_getitem (VDict []) "merged" = Raise (KeyError "merged")
  /\ PullRequest.merge (py := sample_builtins) (net := terse_session)
       sample_pull VNone VNone (VBool false) []
     = (Ok (VBool false), [req]).
Proof.
  repeat split.
Qed.

(** ** The theorems at the sample objects *)

Lemma sample_pull_is_read_from_wire_json :
  Forall (fun kdf => snd kdf sample_pull
                     = wire_field sample_pull_fields (fst (fst kdf)) (snd (fst kdf)))
    PullRequest_fields
  /\ wire_destination sample_pull_fields "base" "Base" (PullRequest.base sample_pull).
Proof.
  destruct (proj1 (proj2 (proj2 (proj2 (proj2 (proj2
              records_are_read_from_wire_json)))))
              sample_pull_fields sample_pull eq_refl)
    as (Hfields & _ & _ & Hbase & _).
  split; assumption.
Defined.

Lemma sample_lists_are_lazy_sequences :
  PullRequest.commits (py := sample_builtins) (net := sample_session)
    sample_pull (VInt 30) VNone []
  = (Ok (_iter 30 (VStr "https://api.github.com/repos/octocat/hello/pulls/1/commits")
           Cls.RepoCommit VNone None), [])
  /\ PullRequest.issue_comments (py := sample_builtins) (net := sample_session)
       sample_pull (VInt 30) VNone []
     = (Ok (_iter 30
              (VStr "https://api.github.com/repos/octocat/hello/issues/1/comments")
              Cls.IssueComment VNone None), [])
  /\ PullRequest.issue_comments (py := sample_builtins) (net := sample_session)
       linked_pull (VInt 30) VNone []
     = (Ok (_iter 30 (VStr "https://example.org/comments")
              Cls.IssueComment VNone None), []).
Proof.
  split; [|split].
  - exact (proj1 (list_methods_return_the_lazy_sequence
                    (py := sample_builtins) (net := sample_session)
                    sample_pull (VInt 30) VNone [])).
  - exact (proj2 (proj2 (proj2 (proj2
             (list_methods_return_the_lazy_sequence
                (py := sample_builtins) (net := sample_session)
                sample_pull (VInt 30) VNone []))))).
  - exact (proj2 (proj2 (proj2 (proj2
             (list_methods_return_the_lazy_sequence
                (py := sample_builtins) (net := sample_session)
                linked_pull (VInt 30) VNone []))))).
Defined.

Lemma sample_pull_keeps_its_urls :
  PullRequest.issue_url sample_pull
  = VStr "https://api.github.com/repos/octocat/hello/issues/1"
  /\ PullRequest.comments_url sample_pull
     = VStr "https://api.github.com/repos/octocat/hello/issues/1/comments".
Proof.
  exact (proj1 (proj2 (proj2 (proj2
           (follow_on_calls_use_the_stored_urls (net := sample_session)))))
           sample_pull_fields sample_pull eq_refl).
Defined.

Lemma closing_the_sample_pull_patches_the_state :
  snd (PullRequest.update (py := sample_builtins) (net := sample_session)
         sample_pull VNone VNone (VStr "closed") [])
  = [request_of PATCH (PullRequest._api sample_pull) [] (VStr "state")].
Proof.
  exact (proj1 (proj2 (update_patches_the_fields_given
                         (py := sample_builtins) (net := sample_session)
                         sample_pull VNone VNone (VStr "closed") [] eq_refl))).
Defined.

Lemma merging_the_sample_pull_returns_merged :
  fst (PullRequest.merge (py := sample_builtins) (net := sample_session)
         sample_pull VNone VNone (VBool false) [])
  = Ok (VBool true).
Proof.
  exact (proj2 (proj2 (proj2 (merge_puts_its_parameters
                                (py := sample_builtins) (net := sample_session)
                                sample_pull VNone VNone (VBool false) [])))
           _ (VBool true) eq_refl eq_refl).
Defined.

Lemma the_sample_pull_equals_itself_once_merged :
  PullRequest.__eq__ sample_pull merged_pull = true <-> py_eq (VInt 1) (VInt 1) = true.
Proof.
  exact (proj1 (proj1 (proj2 (proj2 equality_is_equality_of_ids))
                  sample_pull_fields
                  (dict_set sample_pull_fields "merged" (VBool true))
                  sample_pull merged_pull eq_refl eq_refl)).
Defined.

(** * Further properties of the code *)

(** ** Building destinations and pull requests *)

Lemma py_getitem_truthy (d : dict) (k : string) :
  truthy (wire_field d k VNone) = true ->
  py_getitem (VDict d) k = Ok (wire_field d k VNone).
Proof.
  unfold wire_field, py_getitem.
  destruct (dict_get d k) as [[]|]; simpl; intros H;
    first [reflexivity | discriminate].
Qed.

Lemma destination_of_a_dict (d : dict) (dir : value) :
  let r := wire_field d "repo" VNone in
  PullDestination.__init__ (VDict d) dir =
    if truthy r then
      let? name_ := py_get r "name" in
      let? owner := py_getitem r "owner" in
      let? login := py_get owner "login" in
      Ok {| PullDestination.direction := dir;
            PullDestination.ref := wire_field d "ref" VNone;
            PullDestination.label := wire_field d "label" VNone;
            PullDestination.user :=
              if truthy (wire_field d "user" VNone)
              then Inst (New Cls.User (wire_field d "user" VNone))
              else Raw VNone;
            PullDestination.sha := wire_field d "sha" VNone;
            PullDestination._repo_name := name_;
            PullDestination._repo_owner := login;
            PullDestination.repository := Some (New Cls.Repository r);
            PullDestination.repo := VTuple [login; name_] |}
    else
      Ok {| PullDestination.direction := dir;
            PullDestination.ref := wire_field d "ref" VNone;
            PullDestination.label := wire_field d "label" VNone;
            PullDestination.user :=
              if truthy (wire_field d "user" VNone)
              then Inst (New Cls.User (wire_field d "user" VNone))
              else Raw VNone;
            PullDestination.sha := wire_field d "sha" VNone;
            PullDestination._repo_name := VStr "";
            PullDestination._repo_owner := VStr "";
            PullDestination.repository := None;
            PullDestination.repo := VTuple [VStr ""; VStr ""] |}.
Proof.
  intros r. unfold PullDestination.__init__.
  rewrite !py_get_wire. cbn [rbind]. fold r.
  destruct (truthy r) eqn:E; [|reflexivity].
  rewrite (py_getitem_truthy d "repo" E). cbn [rbind]. fold r.
  destruct (py_get r "name"); reflexivity.
Qed.

Lemma destination_keeps_pair (d : dict) (dir : value)
    (pd : PullDestination.t) :
  PullDestination.__init__ (VDict d) dir = Ok pd ->
  let r := wire_field d "repo" VNone in
  PullDestination.repo pd
    = VTuple [PullDestination._repo_owner pd; PullDestination._repo_name pd]
  /\ PullDestination.repository pd
     = (if truthy r then Some (New Cls.Repository r) else None)
  /\ (truthy r = false ->
      PullDestination._repo_owner pd = VStr ""
      /\ PullDestination._repo_name pd = VStr "")
  /\ (truthy r = true ->
      exists rd od,
        r = VDict rd /\ dict_get rd "owner" = Some (VDict od)
        /\ PullDestination._repo_owner pd = wire_field od "login" VNone
        /\ PullDestination._repo_name pd = wire_field rd "name" VNone).
Proof.
  intros H r. rewrite destination_of_a_dict in H. fold r in H.
  destruct (truthy r) eqn:E.
  - invert_ok H. injection H as <-. cbn.
    split; [reflexivity|]. split; [reflexivity|].
    split; [discriminate|]. intros _.
    destruct r as [| | | | | |rd]; try discriminate.
    match goal with
    | Ho : py_getitem (VDict rd) "owner" = Ok ?o |- _ =>
        unfold py_getitem in Ho;
        destruct (dict_get rd "owner") as [o'|] eqn:Eo; [|discriminate];
        injection Ho as ->
    end.
    match goal with
    | Hl : py_get ?o "login" = Ok _ |- _ =>
        destruct o as [| | | | | |od]; try discriminate;
        rewrite py_get_wire in Hl; injection Hl as <-
    end.
    match goal with
    | Hn : py_get (VDict rd) "name" = Ok _ |- _ =>
        rewrite py_get_wire in Hn; injection Hn as <-
    end.
    exists rd, od. repeat split; assumption || reflexivity.
  - injection H as <-. cbn.
    split; [reflexivity|]. split; [reflexivity|].
    split; [split; reflexivity | discriminate].
Qed.

(** X2.  A destination that was built keeps [repo] equal to the pair
    [(_repo_owner, _repo_name)].  Without a (truthy) repository in the JSON
    both names are the empty string and the attribute [repository] is never
    assigned; with one, the names are the owner's login and the repository's
    name, and [repository] is the [Repository] built from that entry. *)
Theorem destination_keeps_its_repository_pair (d : dict) (dir : value)
    (pd : PullDestination.t) :
  PullDestination.__init__ (VDict d) dir = Ok pd ->
  let r := wire_field d "repo" VNone in
  PullDestination.repo pd
    = VTuple [PullDestination._repo_owner pd; PullDestination._repo_name pd]
  /\ PullDestination.repository pd
     = (if truthy r then Some (New Cls.Repository r) else None)
  /\ (truthy r = false ->
      PullDestination._repo_owner pd = VStr ""
      /\ PullDestination._repo_name pd = VStr "")
  /\ (truthy r = true ->
      exists rd od,
        r = VDict rd /\ dict_get rd "owner" = Some (VDict od)
        /\ PullDestination._repo_owner pd = wire_field od "login" VNone
        /\ PullDestination._repo_name pd = wire_field rd "name" VNone).
Proof.
  exact (destination_keeps_pair d dir pd).
Qed.

(** X4.  The [repository] of a pull request is read off its [base]: the
    falsy [base] itself when there is none; the pair of empty strings when
    the base names no repository; and otherwise the pair of the owner's
    login and the repository's name found under [base.repo]. *)
Theorem repository_is_the_pair_of_the_base (d : dict) (p : PullRequest.t) :
  PullRequest._update_attributes (VDict d) = Ok p ->
  let b := wire_field d "base" VNone in
  (truthy b = false -> PullRequest.repository p = b)
  /\ (truthy b = true ->
      exists bd,
        b = VDict bd
        /\ (truthy (wire_field bd "repo" VNone) = false ->
            PullRequest.repository p = VTuple [VStr ""; VStr ""])
        /\ (truthy (wire_field bd "repo" VNone) = true ->
            exists rd od,
              wire_field bd "repo" VNone = VDict rd
              /\ dict_get rd "owner" = Some (VDict od)
              /\ PullRequest.repository p
                 = VTuple [wire_field od "login" VNone; wire_field rd "name" VNone])).
Proof.
  intros H b.
  destruct (PullRequest_from_wire d p H) as (_ & _ & _ & Hb & _ & Hr).
  unfold wire_destination in Hb. fold b in Hb.
  destruct (truthy b) eqn:E.
  - split; [discriminate|]. intros _.
    destruct Hb as (pd & Hpd & Hbase). rewrite Hbase in Hr.
    destruct b as [| | | | | |bd]; try discriminate.
    exists bd. split; [reflexivity|].
    destruct (destination_keeps_pair bd (VStr "Base") pd Hpd)
      as (Hrepo & _ & Hno & Hyes).
    rewrite Hr, Hrepo. split.
    + intros F. destruct (Hno F) as [-> ->]. reflexivity.
    + intros T. destruct (Hyes T) as (rd & od & Er & Eo & -> & ->).
      exists rd, od. repeat split; assumption.
  - split; [|discriminate]. intros _. now rewrite Hr, Hb.
Qed.

(** ** The string computations *)

Lemma prefix_append (old rest : string) :
  String.prefix old (String.append old rest) = true.
Proof.
  induction old as [|a old IH]; simpl.
  - destruct rest; reflexivity.
  - destruct (ascii_dec a a) as [_|N]; [exact IH | now elim N].
Qed.

Lemma replace_skips (old new t rest : string) :
  str_replace_from old new (String.length t) (String.append t rest)
  = str_replace_from old new O rest.
Proof.
  induction t as [|c t IH]; simpl.
  - reflexivity.
  - exact IH.
Qed.

Lemma replace_without_occurrence (old new s : string) :
  contains old s = false -> str_replace old new s = s.
Proof.
  unfold str_replace. induction s as [|c s IH]; [reflexivity|].
  cbn [contains str_replace_from]. intros H.
  apply orb_false_iff in H. destruct H as [Hp Hc].
  rewrite Hp. now rewrite (IH Hc).
Qed.

Lemma replace_first (c : ascii) (t new a rest : string) :
  first_at (String c t) a (String.append (String c t) rest) = true ->
  str_replace (String c t) new (String.append a (String.append (String c t) rest))
  = String.append a (String.append new (str_replace (String c t) new rest)).
Proof.
  unfold str_replace. induction a as [|x a IH]; intros H.
  - cbn [String.append]. cbn [str_replace_from].
    pose proof (prefix_append (String c t) rest) as P.
    cbn [String.append] in P. rewrite P.
    cbn [String.length Nat.pred]. now rewrite replace_skips.
  - cbn [first_at] in H. apply andb_true_iff in H. destruct H as [Hp Hf].
    apply negb_true_iff in Hp.
    cbn [String.append] in *. cbn [str_replace_from].
    rewrite Hp. now rewrite (IH Hf).
Qed.

Lemma rfind_without_slash (n : string) (i : Z) :
  slash_free n = true -> str_rfind_from "/" i n = -1.
Proof.
  revert i. induction n as [|c n IH]; intros i H; [reflexivity|].
  cbn [slash_free] in H. apply andb_true_iff in H. destruct H as [Hc Hn].
  apply negb_true_iff in Hc. rewrite Ascii.eqb_sym in Hc.
  cbn [str_rfind_from]. rewrite (IH _ Hn), Hc. reflexivity.
Qed.

Lemma rfind_last_slash (base n : string) (i : Z) :
  slash_free n = true -> 0 <= i ->
  str_rfind_from "/" i (String.append base (String "/" n))
  = i + Z.of_nat (String.length base).
Proof.
  intros Hn. revert i. induction base as [|c base IH]; intros i Hi.
  - cbn [String.append str_rfind_from String.length].
    rewrite (rfind_without_slash n (i + 1) Hn). cbn. lia.
  - cbn [String.append str_rfind_from String.length].
    rewrite (IH (i + 1)) by lia.
    destruct (0 <=? i + 1 + Z.of_nat (String.length base)) eqn:E.
    + lia.
    + apply Z.leb_gt in E. lia.
Qed.

Lemma drop_past_the_slash (base n : string) (c : ascii) :
  str_drop (S (String.length base)) (String.append base (String c n)) = n.
Proof.
  induction base as [|x base IH]; [reflexivity | exact IH].
Qed.

Lemma after_last_slash (base n : string) :
  slash_free n = true ->
  py_after_last (VStr (String.append base (String "/" n))) "/" = Ok (VStr n).
Proof.
  intros Hn. unfold py_after_last, str_rfind.
  rewrite (rfind_last_slash base n 0 Hn) by lia.
  replace (Z.to_nat (0 + Z.of_nat (String.length base) + 1))
    with (S (String.length base)) by lia.
  now rewrite drop_past_the_slash.
Qed.

Lemma after_last_without_slash (s : string) :
  slash_free s = true -> py_after_last (VStr s) "/" = Ok (VStr s).
Proof.
  intros Hs. unfold py_after_last, str_rfind.
  now rewrite (rfind_without_slash s 0 Hs).
Qed.

(** ** Further properties of the calls *)

Lemma PullRequest_merged_from_wire (json : value) (p : PullRequest.t) :
  PullRequest._update_attributes json = Ok p ->
  PullRequest.merged p = _get_attribute json "merged" VNone.
Proof.
  intros H. unfold PullRequest._update_attributes in H.
  invert_ok H. injection H as <-. reflexivity.
Qed.

Section Further.
Context {py : Builtins} {net : Session}.

Lemma create_review_comment_run (self : PullRequest.t)
    (body commit_id path position : value) (log : list request) :
  PullRequest.create_review_comment self body commit_id path position log =
    match py_int position with
    | Ok n =>
        let req := request_of POST (_build_url ["comments"] (PullRequest._api self)) []
                     (VDict [("body", body); ("commit_id", commit_id);
                             ("path", path); ("position", VInt n)]) in
        (decoded_comment (_json (respond log req) 201), log ++ [req])
    | Raise e => (Raise e, log)
    end.
Proof.
  unfold PullRequest.create_review_comment. rewrite bind_lift.
  destruct (py_int position) as [n|e]; reflexivity.
Qed.

Lemma reply_run (self : ReviewComment.t) (body : value) (log : list request) :
  ReviewComment.reply self body log =
    match py_after_last (ReviewComment._api self) "/" with
    | Ok in_reply_to =>
        let req := request_of POST
                     (_build_url ["comments"] (ReviewComment.pull_request_url self)) []
                     (VDict [("body", body); ("in_reply_to", in_reply_to)]) in
        (decoded_comment (_json (respond log req) 201), log ++ [req])
    | Raise e => (Raise e, log)
    end.
Proof.
  unfold ReviewComment.reply. rewrite bind_lift.
  destruct (py_after_last _ _); reflexivity.
Qed.

(** X5.  When the response to an update is a JSON object from which the
    pull request cannot be built again, [update] raises the exception of
    that construction: it returns neither [True] nor [False], and the PATCH
    has been sent by then. *)
Theorem update_raises_after_sending (self : PullRequest.t)
    (title body state : value) (log : list request) (d : dict) (e : exn) :
  is_none title && is_none body && is_none state = false ->
  let req := request_of PATCH (PullRequest._api self) []
               (VStr (dumps (VDict (non_none_fields title body state)))) in
  status_code (respond log req) = 200 ->
  json_body (respond log req) = VDict d ->
  PullRequest._update_attributes (VDict d) = Raise e ->
  PullRequest.update self title body state log = (Raise e, log ++ [req]).
Proof.
  intros Hsome req Hs Hj He.
  rewrite update_run, Hsome. fold req.
  unfold _json, _boolean. rewrite Hs, Hj. cbn [Z.eqb Pos.eqb].
  destruct d as [|kv d]; [discriminate|].
  cbn [truthy]. now rewrite He.
Qed.

(** X7.  [close] and [reopen] always send one PATCH to the API URL, whatever
    the object holds: its payload ends with the state [closed] (respectively
    [open]) and carries the object's current title and body, each when it is
    not [None]. *)
Theorem close_and_reopen_always_patch (self : PullRequest.t) (log : list request) :
  let fields state :=
    (if is_none (PullRequest.title self) then []
     else [("title", PullRequest.title self)])
    ++ (if is_none (PullRequest.body self) then []
        else [("body", PullRequest.body self)])
    ++ [("state", VStr state)] in
  let req state :=
    request_of PATCH (PullRequest._api self) [] (VStr (dumps (VDict (fields state)))) in
  snd (PullRequest.close self log) = log ++ [req "closed"]
  /\ snd (PullRequest.reopen self log) = log ++ [req "open"].
Proof.
  intros fields req.
  unfold PullRequest.close, PullRequest.reopen. rewrite !update_run.
  cbn [is_none]. rewrite andb_false_r.
  split; destruct (truthy _); reflexivity.
Qed.

(** X8.  [create_review_comment] with a position that [int] accepts sends
    one POST of the four fields to [comments] under the API URL, the
    position as the integer, and does not look at the body.  Whenever the
    call returns, a response with another status than 201 has given the null
    object, and a JSON object at 201 the review comment whose path, position
    and commit are read from it. *)
Theorem create_review_comment_posts_and_decodes (self : PullRequest.t)
    (body commit_id path position : value) (n : Z) (log : list request) :
  py_int position = Ok n ->
  let req := request_of POST (_build_url ["comments"] (PullRequest._api self)) []
               (VDict [("body", body); ("commit_id", commit_id);
                       ("path", path); ("position", VInt n)]) in
  snd (PullRequest.create_review_comment self body commit_id path position log)
  = log ++ [req]
  /\ (forall r,
      fst (PullRequest.create_review_comment self body commit_id path position log)
      = Ok r ->
      (status_code (respond log req) <> 201 -> r = NullObject "ReviewComment")
      /\ (forall d, status_code (respond log req) = 201 ->
          json_body (respond log req) = VDict d ->
          exists c, r = Object c
            /\ ReviewComment.path c = wire_field d "path" VNone
            /\ ReviewComment.position c = wire_field d "position" VNone
            /\ ReviewComment.commit_id c = wire_field d "commit_id" VNone)).
Proof.
  intros Hn req. rewrite create_review_comment_run, Hn. fold req.
  cbn [fst snd]. split; [reflexivity|].
  intros r Hr. unfold decoded_comment, _json, _boolean in Hr. split.
  - intros Hs. apply Z.eqb_neq in Hs. rewrite Hs in Hr.
    cbn [_instance_or_null] in Hr. now injection Hr as <-.
  - intros d Hs Hd. rewrite Hs, Hd in Hr. cbn [Z.eqb Pos.eqb] in Hr.
    cbn [_instance_or_null] in Hr.
    apply rbind_ok in Hr. destruct Hr as (c & Hc & Hr). injection Hr as <-.
    destruct (ReviewComment_from_wire d) as (c' & Hc' & Hf & _).
    rewrite Hc in Hc'. injection Hc' as <-.
    exists c. split; [reflexivity|].
    unfold ReviewComment_fields in Hf.
    repeat match goal with
           | H : Forall _ (_ :: _) |- _ => inversion H; clear H; subst
           end.
    cbn [fst snd] in *. repeat split; assumption.
Qed.

End Further.

Section Replies.
Context {py : Builtins} {net : Session}.

(** X9.  [reply] names the comment it answers by the last segment of the
    comment's API URL: for an API URL [base/n] with no further slash in [n],
    it sends one POST of [body] and [in_reply_to = n] (the segment as a
    string) to [comments] under the comment's [pull_request_url], and the
    response is decoded like that of [create_review_comment].  For an API
    URL without any slash, [in_reply_to] is the whole URL. *)
Theorem reply_names_the_comment_by_its_last_segment (self : ReviewComment.t)
    (body : value) (base n : string) (log : list request) :
  slash_free n = true ->
  (ReviewComment._api self = VStr (String.append base (String "/" n))
   \/ ReviewComment._api self = VStr n) ->
  let req := request_of POST
               (_build_url ["comments"] (ReviewComment.pull_request_url self)) []
               (VDict [("body", body); ("in_reply_to", VStr n)]) in
  ReviewComment.reply self body log
  = (decoded_comment (_json (respond log req) 201), log ++ [req]).
Proof.
  intros Hn [Hapi|Hapi] req; rewrite reply_run, Hapi.
  - now rewrite (after_last_slash base n Hn).
  - now rewrite (after_last_without_slash n Hn).
Qed.

(** X10.  When the links of a pull request carry a [comments] entry with a
    truthy [href], [issue_comments] lists that URL: the API URL is not
    consulted. *)
Theorem issue_comments_prefers_the_link (self : PullRequest.t)
    (number etag : value) (c : dict) (log : list request) :
  py_get_default (PullRequest.links self) "comments" (VDict []) = Ok (VDict c) ->
  truthy (wire_field c "href" VNone) = true ->
  PullRequest.issue_comments self number etag log
  = (let? n := py_int number in
     Ok (_iter n (wire_field c "href" VNone) Cls.IssueComment etag None), log).
Proof.
  intros Hc Hh. rewrite issue_comments_run.
  unfold PullRequest.issue_comments_url. rewrite Hc. cbn [rbind].
  rewrite py_get_wire. cbn [rbind]. rewrite Hh. reflexivity.
Qed.

(** X11.  Without such a link, [issue_comments] lists [comments] under the
    API URL with [pulls] replaced by [issues]: for an API URL [a ++ "pulls"
    ++ b] whose first [pulls] is the one after [a] and whose rest [b] has
    none, that is [comments] under [a ++ "issues" ++ b]. *)
Theorem issue_comments_falls_back_to_the_issue (self : PullRequest.t)
    (number etag : value) (c : dict) (a b : string) (log : list request) :
  py_get_default (PullRequest.links self) "comments" (VDict []) = Ok (VDict c) ->
  truthy (wire_field c "href" VNone) = false ->
  PullRequest._api self = VStr (String.append a (String.append "pulls" b)) ->
  first_at "pulls" a (String.append "pulls" b) = true ->
  contains "pulls" b = false ->
  PullRequest.issue_comments self number etag log
  = (let? n := py_int number in
     Ok (_iter n (_build_url ["comments"]
                    (VStr (String.append a (String.append "issues" b))))
           Cls.IssueComment etag None), log).
Proof.
  intros Hc Hh Hapi Hfirst Hrest. rewrite issue_comments_run.
  unfold PullRequest.issue_comments_url. rewrite Hc. cbn [rbind].
  rewrite py_get_wire. cbn [rbind]. rewrite Hh. cbn [negb].
  rewrite Hapi. unfold py_replace.
  rewrite (replace_first "p" "ulls" "issues" a b Hfirst).
  rewrite (replace_without_occurrence "pulls" "issues" b Hrest).
  reflexivity.
Qed.

(** X12.  A call that fails while it prepares its arguments sends nothing
    and lets the exception through: [create_review_comment] and the
    list-returning methods when [int] rejects the position or the count,
    [reply] when the comment's API URL is no string, and [issue_comments]
    when its URL cannot be found, as when the [comments] link is null. *)
Theorem failures_before_the_verb_send_nothing :
  (forall self body commit_id path position log e,
     py_int position = Raise e ->
     PullRequest.create_review_comment self body commit_id path position log
     = (Raise e, log))
  /\ (forall self number etag log e,
     py_int number = Raise e ->
     PullRequest.commits self number etag log = (Raise e, log)
     /\ PullRequest.files self number etag log = (Raise e, log)
     /\ PullRequest.review_comments self number etag log = (Raise e, log)
     /\ PullRequest.reviews self number etag log = (Raise e, log))
  /\ (forall self body log,
     (forall s, ReviewComment._api self <> VStr s) ->
     ReviewComment.reply self body log = (Raise AttributeError, log))
  /\ (forall self number etag log e,
     PullRequest.issue_comments_url self = Raise e ->
     PullRequest.issue_comments self number etag log = (Raise e, log))
  /\ (forall self l,
     PullRequest.links self = VDict l ->
     dict_get l "comments" = Some VNone ->
     PullRequest.issue_comments_url self = Raise AttributeError).
Proof.
  split; [|split; [|split; [|split]]].
  - intros self body commit_id path position log e H.
    now rewrite create_review_comment_run, H.
  - intros self number etag log e H.
    unfold PullRequest.commits, PullRequest.files, PullRequest.review_comments,
      PullRequest.reviews.
    cbv zeta. rewrite !iterator_run, H. repeat split.
  - intros self body log H. rewrite reply_run.
    destruct (ReviewComment._api self) as [| | |s| | |]; try reflexivity.
    now elim (H s).
  - intros self number etag log e H. now rewrite issue_comments_run, H.
  - intros self l Hl Hc. unfold PullRequest.issue_comments_url.
    rewrite Hl. unfold py_get_default. now rewrite Hc.
Qed.

(** X13.  After a successful [update], the [merged] attribute is the one of
    the response, and when that is truthy [is_merged] answers with it from
    then on without a request. *)
Theorem is_merged_after_update (self self' : PullRequest.t)
    (title body state : value) (log log' : list request) :
  PullRequest.update self title body state log = (Ok (true, self'), log') ->
  let req := request_of PATCH (PullRequest._api self) []
               (VStr (dumps (VDict (non_none_fields title body state)))) in
  let merged := _get_attribute (_json (respond log req) 200) "merged" VNone in
  PullRequest.merged self' = merged
  /\ (truthy merged = true ->
      forall log2, PullRequest.is_merged self' log2 = (Ok merged, log2)).
Proof.
  rewrite update_run. intros H req merged.
  destruct (is_none title && is_none body && is_none state); [discriminate|].
  fold req in H.
  destruct (truthy (_json (respond log req) 200)); [|discriminate].
  destruct (PullRequest._update_attributes (_json (respond log req) 200))
    as [p|e] eqn:E; [|discriminate].
  cbn [rbind] in H. injection H as <- _.
  pose proof (PullRequest_merged_from_wire _ _ E) as Hm. fold merged in Hm.
  split; [exact Hm|].
  intros T log2. rewrite is_merged_run, Hm, T. reflexivity.
Qed.

(** X14.  [is_merged] keeps nothing of the answer it gets: asked twice about
    a pull request whose [merged] attribute is falsy, it sends the same GET
    twice. *)
Theorem is_merged_asks_again (self : PullRequest.t) (log : list request) :
  truthy (PullRequest.merged self) = false ->
  let req := request_of GET (_build_url ["merge"] (PullRequest._api self)) [] VNone in
  snd ((_ <- PullRequest.is_merged self ;; PullRequest.is_merged self) log)
  = log ++ [req; req].
Proof.
  intros H req. unfold bind.
  rewrite is_merged_run, H. fold req.
  rewrite is_merged_run, H. fold req.
  cbn [snd]. now rewrite <- app_assoc.
Qed.

(** X15.  When the response to a merge has status 200 and is a non-empty
    JSON object without a [merged] field, [merge] raises
    [KeyError('merged')]; the PUT has been sent by then. *)
Theorem merge_raises_without_a_merged_field (self : PullRequest.t)
    (commit_message sha squash : value) (log : list request) (d : dict) :
  let req := request_of PUT (_build_url ["merge"] (PullRequest._api self)) []
               (VStr (dumps (VDict (merge_parameters commit_message sha squash)))) in
  status_code (respond log req) = 200 ->
  json_body (respond log req) = VDict d ->
  d <> [] ->
  dict_get d "merged" = None ->
  PullRequest.merge self commit_message sha squash log
  = (Raise (KeyError "merged"), log ++ [req]).
Proof.
  intros req Hs Hj Hd Hm. rewrite merge_run. fold req.
  unfold _json, _boolean. rewrite Hs, Hj. cbn [Z.eqb Pos.eqb].
  destruct d as [|kv d]; [now elim Hd|].
  cbn [truthy negb py_getitem]. now rewrite Hm.
Qed.

End Replies.

(** ** The further properties at the sample objects *)

Lemma sample_base_keeps_its_pair :
  PullDestination.repo sample_base = VTuple [VStr "octocat"; VStr "hello"]
  /\ PullDestination.repository sample_base
     = Some (New Cls.Repository
               (VDict [("name", VStr "hello");
                       ("owner", VDict [("login", VStr "octocat")])])).
Proof.
  destruct (destination_keeps_its_repository_pair
              sample_base_fields (VStr "Base") sample_base eq_refl)
    as (Hrepo & Hrepository & _).
  split; [exact Hrepo | exact Hrepository].
Defined.

Lemma the_sample_pull_is_filed_on_octocat_hello :
  PullRequest.repository sample_pull = VTuple [VStr "octocat"; VStr "hello"].
Proof.
  destruct (proj2 (repository_is_the_pair_of_the_base
                     sample_pull_fields sample_pull eq_refl) eq_refl)
    as (bd & Eb & _ & Hyes).
  injection Eb as <-.
  destruct (Hyes eq_refl) as (rd & od & Er & Eo & H).
  injection Er as <-. injection Eo as <-. exact H.
Defined.

Lemma updating_to_an_ownerless_pull_raises :
  PullRequest.update (py := sample_builtins) (net := ownerless_session)
    sample_pull VNone VNone (VStr "closed") []
  = (Raise (KeyError "owner"),
     [request_of PATCH (PullRequest._api sample_pull) [] (VStr "state")]).
Proof.
  exact (update_raises_after_sending
           (py := sample_builtins) (net := ownerless_session)
           sample_pull VNone VNone (VStr "closed") []
           ownerless_pull_fields (KeyError "owner")
           eq_refl eq_refl eq_refl eq_refl).
Defined.

Lemma a_review_comment_on_the_sample_pull_is_posted :
  snd (PullRequest.create_review_comment (py := sample_builtins) (net := sample_session)
         sample_pull (VStr "") (VStr "6dcb09b") (VStr "README.md") (VBool true) [])
  = [request_of POST
       (VStr "https://api.github.com/repos/octocat/hello/pulls/1/comments") []
       (VDict [("body", VStr ""); ("commit_id", VStr "6dcb09b");
               ("path", VStr "README.md"); ("position", VInt 1)])].
Proof.
  exact (proj1 (create_review_comment_posts_and_decodes
                  (py := sample_builtins) (net := sample_session)
                  sample_pull (VStr "") (VStr "6dcb09b") (VStr "README.md")
                  (VBool true) 1 [] eq_refl)).
Defined.

Lemma replying_to_the_sample_comment_names_42 :
  snd (ReviewComment.reply (net := sample_session) sample_comment (VStr "done") [])
  = [request_of POST
       (VStr "https://api.github.com/repos/octocat/hello/pulls/1/comments") []
       (VDict [("body", VStr "done"); ("in_reply_to", VStr "42")])].
Proof.
  exact (f_equal snd
           (reply_names_the_comment_by_its_last_segment
              (net := sample_session) sample_comment (VStr "done")
              "https://api.github.com/repos/octocat/hello/pulls/comments" "42" []
              eq_refl (or_introl eq_refl))).
Defined.

Lemma the_linked_pull_lists_its_link :
  PullRequest.issue_comments (py := sample_builtins) (net := sample_session)
    linked_pull (VInt 10) VNone []
  = (Ok (_iter 10 (VStr "https://example.org/comments") Cls.IssueComment VNone None),
     []).
Proof.
  exact (issue_comments_prefers_the_link
           (py := sample_builtins) (net := sample_session)
           linked_pull (VInt 10) VNone
           [("href", VStr "https://example.org/comments")] []
           eq_refl eq_refl).
Defined.

Lemma the_sample_pull_lists_the_comments_of_its_issue :
  PullRequest.issue_comments (py := sample_builtins) (net := sample_session)
    sample_pull (VInt 10) VNone []
  = (Ok (_iter 10
           (VStr "https://api.github.com/repos/octocat/hello/issues/1/comments")
           Cls.IssueComment VNone None), []).
Proof.
  exact (issue_comments_falls_back_to_the_issue
           (py := sample_builtins) (net := sample_session)
           sample_pull (VInt 10) VNone []
           "https://api.github.com/repos/octocat/hello/" "/1" []
           eq_refl eq_refl eq_refl eq_refl eq_refl).
Defined.

Lemma a_review_comment_without_position_is_not_sent :
  PullRequest.create_review_comment (py := sample_builtins) (net := sample_session)
    sample_pull (VStr "nice") (VStr "6dcb09b") (VStr "README.md") VNone []
  = (Raise TypeError, []).
Proof.
  exact (proj1 (failures_before_the_verb_send_nothing
                  (py := sample_builtins) (net := sample_session))
           sample_pull (VStr "nice") (VStr "6dcb09b") (VStr "README.md") VNone []
           TypeError eq_refl).
Defined.

Lemma the_closed_sample_pull_is_still_unmerged :
  PullRequest.merged (pull_of (dict_set sample_pull_fields "state" (VStr "closed")))
  = VBool false.
Proof.
  exact (proj1 (is_merged_after_update
                  (py := sample_builtins) (net := sample_session)
                  sample_pull _ VNone VNone (VStr "closed") [] _ eq_refl)).
Defined.

Lemma asking_twice_about_the_sample_pull :
  snd ((_ <- PullRequest.is_merged (net := sample_session) sample_pull ;;
        PullRequest.is_merged (net := sample_session) sample_pull) [])
  = [request_of GET
       (VStr "https://api.github.com/repos/octocat/hello/pulls/1/merge") [] VNone;
     request_of GET
       (VStr "https://api.github.com/repos/octocat/hello/pulls/1/merge") [] VNone].
Proof.
  exact (is_merged_asks_again (net := sample_session) sample_pull [] eq_refl).
Defined.

Lemma merging_against_a_message_raises :
  PullRequest.merge (py := sample_builtins) (net := message_session)
    sample_pull VNone VNone (VBool false) []
  = (Raise (KeyError "merged"),
     [request_of PUT
        (VStr "https://api.github.com/repos/octocat/hello/pulls/1/merge") []
        (VStr "squash")]).
Proof.
  exact (merge_raises_without_a_merged_field
           (py := sample_builtins) (net := message_session)
           sample_pull VNone VNone (VBool false) []
           [("message", VStr "Pull Request is not mergeable")]
           eq_refl eq_refl ltac:(discriminate) eq_refl).
Defined.

(** ** Directions and verbs *)

Lemma destination_direction (v dir : value) (pd : PullDestination.t) :
  PullDestination.__init__ v dir = Ok pd -> PullDestination.direction pd = dir.
Proof.
  destruct v as [| | | | | |d]; try discriminate.
  intros H. exact (proj1 (PullDestination_from_wire d dir pd H)).
Qed.

Lemma destination_entry (d : dict) (k dir : string) (a : attr PullDestination.t) :
  wire_destination d k dir a ->
  (truthy (wire_field d k VNone) = true <-> exists pd, a = Inst pd)
  /\ (forall pd, a = Inst pd -> PullDestination.direction pd = VStr dir).
Proof.
  unfold wire_destination.
  destruct (truthy (wire_field d k VNone)).
  - intros (pd & I & ->). split.
    + split; eauto.
    + intros pd' E. injection E as <-. exact (destination_direction _ _ _ I).
  - intros ->. split.
    + split; [discriminate | intros [pd E]; discriminate].
    + intros pd E. discriminate.
Qed.

(** X16.  In a pull request built from JSON, [base] is a destination exactly
    when the JSON has a truthy [base], and its direction is then [Base];
    likewise [head], with direction [Head]. *)
Theorem base_and_head_know_their_direction (d : dict) (p : PullRequest.t) :
  PullRequest._update_attributes (VDict d) = Ok p ->
  (truthy (wire_field d "base" VNone) = true <->
   exists pd, PullRequest.base p = Inst pd)
  /\ (forall pd, PullRequest.base p = Inst pd ->
      PullDestination.direction pd = VStr "Base")
  /\ (truthy (wire_field d "head" VNone) = true <->
      exists pd, PullRequest.head p = Inst pd)
  /\ (forall pd, PullRequest.head p = Inst pd ->
      PullDestination.direction pd = VStr "Head").
Proof.
  intros H.
  destruct (PullRequest_from_wire d p H) as (_ & _ & _ & Hb & Hh & _).
  destruct (destination_entry _ _ _ _ Hb) as [B1 B2].
  destruct (destination_entry _ _ _ _ Hh) as [H1 H2].
  repeat split; first [apply B1 | apply B2 | apply H1 | apply H2].
Qed.

Section Verbs.
Context {py : Builtins} {net : Session}.

Lemma issued_of_app {A} (m : M A) (log reqs : list request) :
  snd (m log) = log ++ reqs -> issued m log = reqs.
Proof.
  intros E. unfold issued.
  rewrite E, skipn_app, skipn_all, Nat.sub_diag. reflexivity.
Qed.

Ltac sends_one := eexists [_]; split; [reflexivity | repeat constructor].
Ltac sends_none := exists []; split; [now rewrite app_nil_r | constructor].

Lemma run_uses_its_verb (c : call) (log : list request) :
  exists reqs,
    snd (run c log) = log ++ reqs
    /\ Forall (fun r => req_verb r = verb_of c) reqs.
Proof.
  destruct c as [self c | self | self body];
    [destruct c|..]; unfold run, run_pull_request; rewrite void_run;
    cbn [verb_of].
  - unfold PullRequest.close. rewrite update_run.
    cbn [is_none]. rewrite andb_false_r.
    destruct (truthy _); sends_one.
  - rewrite create_comment_run. destruct (truthy body); [sends_one | sends_none].
  - rewrite create_review_comment_run.
    destruct (py_int position); [sends_one | sends_none].
  - unfold PullRequest.diff, _get. rewrite bind_perform. sends_one.
  - rewrite is_merged_run.
    destruct (truthy (PullRequest.merged self)); [sends_none | sends_one].
  - rewrite issue_run. sends_one.
  - unfold PullRequest.commits. cbv zeta. rewrite iterator_run. sends_none.
  - unfold PullRequest.files. cbv zeta. rewrite iterator_run. sends_none.
  - rewrite issue_comments_run. sends_none.
  - rewrite merge_run. sends_one.
  - unfold PullRequest.patch, _get. rewrite bind_perform. sends_one.
  - unfold PullRequest.reopen. rewrite update_run.
    cbn [is_none]. rewrite andb_false_r.
    destruct (truthy _); sends_one.
  - unfold PullRequest.review_comments. cbv zeta. rewrite iterator_run. sends_none.
  - unfold PullRequest.reviews. cbv zeta. rewrite iterator_run. sends_none.
  - rewrite update_run.
    destruct (is_none title && is_none body && is_none state);
      [sends_none|].
    destruct (truthy _); sends_one.
  - rewrite contents_run. sends_one.
  - rewrite reply_run.
    destruct (py_after_last _ _); [sends_one | sends_none].
Qed.

(** X17.  Every request a call sends uses the verb of its method: [diff],
    [patch], [is_merged], [issue], [contents] and the list-returning methods
    never send anything but a GET, so they change nothing on the service;
    [create_comment], [create_review_comment] and [reply] only POST, [merge]
    only PUTs, and [update], [close] and [reopen] only PATCH. *)
Theorem a_call_uses_the_verb_of_its_method (c : call) (log : list request) :
  Forall (fun r => req_verb r = verb_of c) (issued (run c) log).
Proof.
  destruct (run_uses_its_verb c log) as (reqs & E & H).
  now rewrite (issued_of_app _ _ _ E).
Qed.

End Verbs.

Lemma the_sample_pull_has_a_base :
  exists pd, PullRequest.base sample_pull = Inst pd.
Proof.
  exact (proj1 (proj1 (base_and_head_know_their_direction
                         sample_pull_fields sample_pull eq_refl)) eq_refl).
Defined.
